(** * Nitro-Powered AI Research Agent: the research/report pipeline of [main.py]

    A shallow embedding of [ResearchAgent], [AnalystAgent], [ResearchSystem]
    and [run_full_research].  The three providers (Tavily search, the Groq
    chat model, the Gemini report model) are black boxes: they are taken as
    state-passing functions over an abstract [World], each returning a value
    or raising.  Python exceptions are an explicit [Raise] result, and
    [try ... except Exception] is [try_except]: it handles the exceptions
    of class [Exception] and lets the others (KeyboardInterrupt,
    SystemExit) through.  The secrets store [st.secrets] is either a
    mapping or, when no secrets file is found, the error that every
    lookup in it raises; it is the same for the whole of a run.  Every
    request sent to a provider is recorded, with its outcome, in a call
    log, so that "is invoked once", "is never invoked" and "raises for one
    sub-query" are statements about a run.

    Not modelled: the [logger] calls (they return nothing and no value
    depends on them).  A text is a [string], a sequence of characters; the
    texts of [main.py] are ASCII and nothing below depends on the
    alphabet. *)

From Stdlib Require Import Ascii String QArith.
From stdpp Require Import base option list strings gmap.

Local Open Scope string_scope.

(** ** Python values *)

(** An exception object: its class, the text [str(e)] that the
    f-strings of the handlers embed, and whether it is an instance of
    [Exception], which is what [except Exception] asks.  KeyboardInterrupt
    and SystemExit derive from [BaseException] only. *)
Record Exception := mkException {
  exc_class : string;
  exc_str : string;
  is_Exception : bool
}.

Definition ValueError (msg : string) : Exception := mkException "ValueError" msg true.

Definition KeyboardInterrupt : Exception :=
  mkException "KeyboardInterrupt" EmptyString false.

Inductive Result (A : Type) : Type :=
| Ok (a : A)
| Raise (e : Exception).
Arguments Ok {A} a.
Arguments Raise {A} e.

Definition is_ok {A} (r : Result A) : bool :=
  match r with Ok _ => true | Raise _ => false end.

(** The outcome is an exception that no [except Exception] handles. *)
Definition escapes {A} (r : Result A) : bool :=
  match r with Ok _ => false | Raise e => negb (is_Exception e) end.

(** The line feed of the source's ["\n"]. *)
Definition nl : string := String "010"%char EmptyString.

(** [sep.join(parts)] *)
Definition join (sep : string) (parts : list string) : string :=
  String.concat sep parts.

(** [s[:n]] *)
Definition slice_to (n : nat) (s : string) : string := substring 0 n s.

(** [needle in hay] *)
Fixpoint contains (needle hay : string) : bool :=
  if String.prefix needle hay then true
  else match hay with
       | EmptyString => false
       | String _ rest => contains needle rest
       end.

(** Truthiness of the value of a credential lookup: [None] and the empty
    text are false. *)
Definition truthy (v : option string) : bool :=
  match v with
  | Some s => negb (String.eqb s EmptyString)
  | None => false
  end.

(** ** Provider data *)

(** One entry of the search response's ["results"] list: a dict. *)
Abbreviation SearchItem := (gmap string string).

(** The dict returned by [TavilyClient.search]; [results] is
    [resp.get("results")], absent when the key is. *)
Record SearchResponse := mkSearchResponse { results : option (list SearchItem) }.

Inductive Message :=
| SystemMessage (content : string)
| HumanMessage (content : string).

Record AIMessage := mkAIMessage { content : string }.

Record GenConfig := mkGenConfig { temperature : Q; max_output_tokens : Z }.

Record GenResponse := mkGenResponse { text : string }.

(** A call into a provider SDK during a run, with what came back (for the
    construction of a client: whether it succeeded). *)
Inductive Call :=
| CallNew (what : string) (r : Result unit)
| CallSearch (query depth : string) (max_results : Z) (r : Result SearchResponse)
| CallInvoke (messages : list Message) (r : Result AIMessage)
| CallGenerate (prompt : string) (cfg : GenConfig) (r : Result GenResponse).

Definition constructed {A} (what : string) (r : Result A) : Call :=
  CallNew what (match r with Ok _ => Ok tt | Raise e => Raise e end).

Definition call_ok (c : Call) : bool :=
  match c with
  | CallNew _ r => is_ok r
  | CallSearch _ _ _ r => is_ok r
  | CallInvoke _ r => is_ok r
  | CallGenerate _ _ r => is_ok r
  end.

(** The exception the call raised, if it raised. *)
Definition call_raised (c : Call) : option Exception :=
  match c with
  | CallNew _ (Raise e) | CallSearch _ _ _ (Raise e)
  | CallInvoke _ (Raise e) | CallGenerate _ _ (Raise e) => Some e
  | _ => None
  end.

(** The call raised an exception that no [except Exception] handles. *)
Definition call_escapes (c : Call) : bool :=
  match call_raised c with
  | Some e => negb (is_Exception e)
  | None => false
  end.

Definition searches (log : list Call) : list (string * Result SearchResponse) :=
  omap (fun c => match c with CallSearch q _ _ r => Some (q, r) | _ => None end) log.

Definition invokes (log : list Call) : list (list Message * Result AIMessage) :=
  omap (fun c => match c with CallInvoke m r => Some (m, r) | _ => None end) log.

Definition generates (log : list Call) : list (string * Result GenResponse) :=
  omap (fun c => match c with CallGenerate p _ r => Some (p, r) | _ => None end) log.

(** ** The monad of the code: provider state, call log, exceptions *)

Section Effects.

Context {World : Type}.

Record State := mkState { world : World; calls : list Call }.

Definition M (A : Type) : Type := State -> Result A * State.

Definition ret {A} (a : A) : M A := fun s => (Ok a, s).

Definition bind {A B} (m : M A) (k : A -> M B) : M B :=
  fun s => match m s with
           | (Ok a, s') => k a s'
           | (Raise e, s') => (Raise e, s')
           end.

Definition raise {A} (e : Exception) : M A := fun s => (Raise e, s).

(** [try: body  except Exception as e: handler(e)]: an exception that
    is no instance of [Exception] is not handled and leaves the block. *)
Definition try_except {A} (body : M A) (handler : Exception -> M A) : M A :=
  fun s => match body s with
           | (Ok a, s') => (Ok a, s')
           | (Raise e, s') => if is_Exception e then handler e s' else (Raise e, s')
           end.

(** An expression that gives a value or raises, without a provider call. *)
Definition of_result {A} (r : Result A) : M A := fun s => (r, s).

(** A provider call, appended to the log with its outcome. *)
Definition request {A} (f : World -> Result A * World) (entry : Result A -> Call) : M A :=
  fun s => let (r, w) := f (world s) in (r, mkState w (calls s ++ [entry r])).

Definition read {A} (f : World -> A) : M A := fun s => (Ok (f (world s)), s).

(** A run from a world with an empty log. *)
Definition run {A} (m : M A) (w : World) : Result A * State := m (mkState w []).

End Effects.

Arguments State : clear implicits.
Arguments M : clear implicits.

Notation "'let*' x := m 'in' k" := (bind m (fun x => k))
  (at level 10, x name, m at level 200, k at level 200, only parsing).

(** ** Texts of [main.py] *)

Definition NO_RESULTS : string := "No results.".

Definition INSUFFICIENT : string :=
  "Could not find sufficient information on the topic.".

Definition SEPARATOR : string := nl +:+ nl +:+ "---" +:+ nl +:+ nl.

(** [it.get(key, 'N/A')] *)
Definition item_get (it : SearchItem) (key : string) : string :=
  default "N/A" (it !! key).

(** The f-string appended to [out] for one result (lines 65-70). *)
Definition format_item (it : SearchItem) : string :=
  let content := slice_to 1500 (item_get it "content") in
  "Title: " +:+ item_get it "title" +:+ nl +:+
  "Content: " +:+ content +:+ nl +:+
  "URL: " +:+ item_get it "url" +:+ nl +:+ "---".

(** The three sub-queries (lines 79-83). *)
Definition sub_queries (topic : string) : list string :=
  [ topic +:+ " recent developments";
    topic +:+ " key players and companies";
    topic +:+ " major challenges and opportunities" ].

(** The summarization prompt (lines 92-96). *)
Definition summary_prompt (topic q web_data : string) : string :=
  "You are an expert researcher. Synthesize this data on '" +:+ topic +:+ "':" +:+ nl +:+ nl +:+
  "Query: " +:+ q +:+ nl +:+ web_data +:+ nl +:+
  "Provide a concise, factual summary based *only* on the provided data (max 250 words).".

Definition summary_messages (topic q web_data : string) : list Message :=
  [ SystemMessage "You are an expert research analyst.";
    HumanMessage (summary_prompt topic q web_data) ].

(** The report prompt (lines 134-144). *)
Definition report_prompt (research_data topic today : string) : string :=
  "You are a senior research analyst. Create a detailed, well-structured markdown report on '"
    +:+ topic +:+ "'." +:+ nl +:+ nl +:+
  "Use the following research summaries to construct your report. Adhere strictly to the provided information."
    +:+ nl +:+ nl +:+
  "Include the following sections:" +:+ nl +:+
  "- **Executive Summary**" +:+ nl +:+
  "- **Key Findings**" +:+ nl +:+
  "- **Detailed Analysis**" +:+ nl +:+
  "- **Conclusions & Recommendations**" +:+ nl +:+ nl +:+
  "--- RESEARCH DATA START ---" +:+ nl +:+ research_data +:+ nl +:+
  "--- RESEARCH DATA END ---" +:+ nl +:+ nl +:+
  "Current date: " +:+ today.

Definition gen_config : GenConfig := mkGenConfig (3 # 10) 4096.

Definition search_failed (e : Exception) : string := "Search failed: " +:+ exc_str e.
Definition research_failed (e : Exception) : string := "Research failed: " +:+ exc_str e.
Definition report_failed (e : Exception) : string := "Report generation failed: " +:+ exc_str e.

(** The failure document of [run_full_research] (line 177). *)
Definition pipeline_failed (e : Exception) : string :=
  "# Research Failed" +:+ nl +:+ nl +:+ "An unexpected error occurred: " +:+ exc_str e +:+ nl.

Definition MISSING_RESEARCH_KEYS : string := "Missing GROQ_API_KEY or TAVILY_API_KEY".
Definition MISSING_GEMINI_KEY : string := "Missing GEMINI_API_KEY".

(** ** The agents *)

Section Pipeline.

Context {World ChatGroq TavilyClient GenerativeModel : Type}.

(** The ambient configuration and the provider SDKs.  [st_secrets] is
    Streamlit's secrets store: the mapping parsed from the secrets file,
    or the error that every access raises when no such file is found. *)
Record Services := mkServices {
  st_secrets : Result (gmap string string);
  os_environ : gmap string string;
  new_ChatGroq : Q -> string -> string -> World -> Result ChatGroq * World;
  new_TavilyClient : string -> World -> Result TavilyClient * World;
  tavily_search :
    TavilyClient -> string -> string -> Z -> World -> Result SearchResponse * World;
  llm_invoke : ChatGroq -> list Message -> World -> Result AIMessage * World;
  genai_configure : string -> World -> Result unit * World;
  new_GenerativeModel : string -> World -> Result GenerativeModel * World;
  generate_content :
    GenerativeModel -> string -> GenConfig -> World -> Result GenResponse * World;
  now_strftime : string -> World -> string
}.

Variable S : Services.

(** [st.secrets.get(key, os.getenv(key))]: the environment is the
    default for a key that a readable store lacks; a store that cannot be
    read raises, whatever the environment holds. *)
Definition secret (key : string) : Result (option string) :=
  match st_secrets S with
  | Ok store =>
      Ok (match store !! key with
          | Some v => Some v
          | None => os_environ S !! key
          end)
  | Raise e => Raise e
  end.

Record ResearchAgent := mkResearchAgent {
  groq_api_key : option string;
  tavily_api_key : option string;
  llm : ChatGroq;
  tavily : TavilyClient
}.

Record AnalystAgent := mkAnalystAgent {
  gemini_key : option string;
  model : GenerativeModel
}.

Record ResearchSystem := mkResearchSystem {
  researcher : ResearchAgent;
  analyst : AnalystAgent
}.

(** [ResearchAgent.__init__] (lines 42-54).  Past the guard both keys
    are non-empty texts, which is what the constructors receive. *)
Definition ResearchAgent_init : M World ResearchAgent :=
  let* groq := of_result (secret "GROQ_API_KEY") in
  let* tav := of_result (secret "TAVILY_API_KEY") in
  if negb (truthy groq && truthy tav) then
    raise (ValueError MISSING_RESEARCH_KEYS)
  else
    let* l := request (new_ChatGroq S (1 # 10) (default EmptyString groq) "llama3-70b-8192")
                      (constructed "ChatGroq") in
    let* t := request (new_TavilyClient S (default EmptyString tav))
                      (constructed "TavilyClient") in
    ret (mkResearchAgent groq tav l t).

(** [ResearchAgent._search_web] (lines 56-74) *)
Definition _search_web (self : ResearchAgent) (query : string) : M World string :=
  try_except
    (let* resp := request (tavily_search S (tavily self) query "advanced" 3)
                     (CallSearch query "advanced" 3) in
     let items := default [] (results resp) in
     match items with
     | [] => ret NO_RESULTS
     | _ => ret (join nl (map format_item items))
     end)
    (fun e => ret (search_failed e)).

(** The [for q in queries] loop of [research_topic] (lines 86-103), with
    the list [summaries] built so far. *)
Fixpoint research_loop (self : ResearchAgent) (topic : string)
         (queries : list string) (summaries : list string) : M World (list string) :=
  match queries with
  | [] => ret summaries
  | q :: rest =>
      let* web_data := _search_web self q in
      if String.eqb web_data NO_RESULTS then
        research_loop self topic rest summaries
      else
        let* resp := request (llm_invoke S (llm self) (summary_messages topic q web_data))
                        (CallInvoke (summary_messages topic q web_data)) in
        research_loop self topic rest (summaries ++ [content resp])
  end.

(** [ResearchAgent.research_topic] (lines 76-112) *)
Definition research_topic (self : ResearchAgent) (topic : string) : M World string :=
  try_except
    (let* summaries := research_loop self topic (sub_queries topic) [] in
     match summaries with
     | [] => ret INSUFFICIENT
     | _ => ret (join SEPARATOR summaries)
     end)
    (fun e => ret (research_failed e)).

(** [AnalystAgent.__init__] (lines 122-129) *)
Definition AnalystAgent_init : M World AnalystAgent :=
  let* key := of_result (secret "GEMINI_API_KEY") in
  if negb (truthy key) then
    raise (ValueError MISSING_GEMINI_KEY)
  else
    let* _ := request (genai_configure S (default EmptyString key))
                      (constructed "genai.configure") in
    let* m := request (new_GenerativeModel S "gemini-1.5-flash-latest")
                      (constructed "GenerativeModel") in
    ret (mkAnalystAgent key m).

(** [AnalystAgent.create_report] (lines 131-151) *)
Definition create_report (self : AnalystAgent) (research_data topic : string)
  : M World string :=
  try_except
    (let* today := read (now_strftime S "%Y-%m-%d") in
     let prompt := report_prompt research_data topic today in
     let* resp := request (generate_content S (model self) prompt gen_config)
                     (CallGenerate prompt gen_config) in
     ret (text resp))
    (fun e => ret (report_failed e)).

(** [ResearchSystem.__init__] (lines 159-162) *)
Definition ResearchSystem_init : M World ResearchSystem :=
  let* r := ResearchAgent_init in
  let* a := AnalystAgent_init in
  ret (mkResearchSystem r a).

(** The [try] block of [run_full_research] (lines 168-174). *)
Definition run_full_research_body (topic : string) : M World string :=
  let* system := ResearchSystem_init in
  let* data := research_topic (researcher system) topic in
  let* report := create_report (analyst system) data topic in
  ret report.

(** [run_full_research] (lines 165-177) *)
Definition run_full_research (topic : string) : M World string :=
  try_except (run_full_research_body topic)
             (fun e => ret (pipeline_failed e)).

End Pipeline.

Arguments format_item : simpl never.
Arguments summary_messages : simpl never.
Arguments report_prompt : simpl never.
Arguments search_failed : simpl never.
Arguments research_failed : simpl never.
Arguments report_failed : simpl never.
Arguments pipeline_failed : simpl never.

(** ** What each stage returns, as a function of the provider's outcome *)

(** The search returned a response with no result (or no ["results"] key). *)
Definition search_empty (r : Result SearchResponse) : bool :=
  match r with
  | Ok resp => match default [] (results resp) with [] => true | _ => false end
  | Raise _ => false
  end.

(** The search returned a response with at least one result. *)
Definition search_nonempty (r : Result SearchResponse) : bool :=
  match r with
  | Ok resp => match default [] (results resp) with [] => false | _ => true end
  | Raise _ => false
  end.

(** The search raised an exception of class [Exception], the one the
    handler of [_search_web] is for. *)
Definition search_raised (r : Result SearchResponse) : bool :=
  match r with
  | Ok _ => false
  | Raise e => is_Exception e
  end.

(** The text [_search_web] returns when the provider's outcome is [r]
    (for an exception: when its handler takes it). *)
Definition search_text (r : Result SearchResponse) : string :=
  match r with
  | Ok resp =>
      match default [] (results resp) with
      | [] => NO_RESULTS
      | items => join nl (map format_item items)
      end
  | Raise e => search_failed e
  end.

(** The text [research_topic] returns when its loop ends with [out]
    (for an exception: when its handler takes it). *)
Definition research_text (out : Result (list string)) : string :=
  match out with
  | Ok [] => INSUFFICIENT
  | Ok summaries => join SEPARATOR summaries
  | Raise e => research_failed e
  end.

(** The text [create_report] returns when the model's outcome is [r]
    (for an exception: when its handler takes it). *)
Definition report_text (r : Result GenResponse) : string :=
  match r with
  | Ok resp => text resp
  | Raise e => report_failed e
  end.

(** How a function ends whose [try] block ends with [r] and whose
    [except Exception] handler returns [text r]: with that text, or with
    the exception when it is outside the handler's class. *)
Definition outcome {A} (text : Result A -> string) (r : Result A) : Result string :=
  match r with
  | Ok _ => Ok (text r)
  | Raise e => if is_Exception e then Ok (text r) else Raise e
  end.

(** A run of the per-query loop of [research_topic] over [queries],
    entered with [acc] summaries: the calls it makes and how it ends.  A
    sub-query whose search is empty is skipped; any other whose search
    gave a text (results, or the text of a handled failure) is
    summarized; a summarizer that raises ends the loop, and so does a
    search whose exception [_search_web] does not handle. *)
Inductive loop_run (topic : string)
  : list string -> list string -> list Call -> Result (list string) -> Prop :=
| loop_done acc :
    loop_run topic [] acc [] (Ok acc)
| loop_skip q rest acc r log out :
    search_empty r = true ->
    loop_run topic rest acc log out ->
    loop_run topic (q :: rest) acc (CallSearch q "advanced" 3 r :: log) out
| loop_summarize q rest acc r msg log out :
    search_empty r = false ->
    escapes r = false ->
    loop_run topic rest (acc ++ [content msg]) log out ->
    loop_run topic (q :: rest) acc
      (CallSearch q "advanced" 3 r
         :: CallInvoke (summary_messages topic q (search_text r)) (Ok msg) :: log) out
| loop_abort q rest acc r e :
    search_empty r = false ->
    escapes r = false ->
    loop_run topic (q :: rest) acc
      [CallSearch q "advanced" 3 r;
       CallInvoke (summary_messages topic q (search_text r)) (Raise e)] (Raise e)
| loop_interrupt q rest acc e :
    is_Exception e = false ->
    loop_run topic (q :: rest) acc [CallSearch q "advanced" 3 (Raise e)] (Raise e).

(** The state [s'] of a run that started in [s] and made the calls [log]. *)
Definition extends {World} (s s' : State World) (log : list Call) : Prop :=
  calls s' = (calls s ++ log)%list.

(** Calls of a construction: no search, summarizer or report request. *)
Definition builds_only (log : list Call) : Prop :=
  searches log = [] /\ invokes log = [] /\ generates log = [].

(** The summaries received in a run: the contents of the summarizer's
    responses, in call order. *)
Definition summaries_of (log : list Call) : list string :=
  omap (fun mr => match mr.2 with Ok msg => Some (content msg) | Raise _ => None end)
       (invokes log).

(** ** Test doubles

    Providers in the manner of the mocks of [Test/test.py]: clients are
    constructed without error, the search and the summarizer answer by
    the number of calls already made to them, the report model gives one
    fixed outcome, and the keys come from the process environment, the
    secrets file being there without any entry. *)

Record Mock := mkMock { n_search : nat; n_invoke : nat }.

Definition mock (environ : gmap string string)
    (search : nat -> Result SearchResponse) (invoke : nat -> Result AIMessage)
    (generate : Result GenResponse) : @Services Mock unit unit unit :=
  {| st_secrets := Ok ∅;
     os_environ := environ;
     new_ChatGroq := fun _ _ _ w => (Ok tt, w);
     new_TavilyClient := fun _ w => (Ok tt, w);
     tavily_search := fun _ _ _ _ w =>
       (search (n_search w), mkMock (Datatypes.S (n_search w)) (n_invoke w));
     llm_invoke := fun _ _ w =>
       (invoke (n_invoke w), mkMock (n_search w) (Datatypes.S (n_invoke w)));
     genai_configure := fun _ w => (Ok tt, w);
     new_GenerativeModel := fun _ w => (Ok tt, w);
     generate_content := fun _ _ _ w => (generate, w);
     now_strftime := fun _ _ => "2025-01-01" |}.

Definition all_keys : gmap string string :=
  {[ "GROQ_API_KEY" := "gk"; "TAVILY_API_KEY" := "tk"; "GEMINI_API_KEY" := "gk2" ]}.

Definition no_tavily_key : gmap string string :=
  {[ "GROQ_API_KEY" := "gk"; "GEMINI_API_KEY" := "gk2" ]}.


Definition item_TCU : SearchItem :=
  {[ "title" := "T"; "content" := "C"; "url" := "U" ]}.


Definition one_result : Result SearchResponse := Ok (mkSearchResponse (Some [item_TCU])).
Definition zero_results : Result SearchResponse := Ok (mkSearchResponse (Some [])).
Definition sum_reply : Result AIMessage := Ok (mkAIMessage "sum").
Definition report_reply : Result GenResponse := Ok (mkGenResponse "## Report").
Definition boom : Exception := mkException "Exception" "fail" true.

Definition fresh : Mock := mkMock 0 0.
Definition test_agent : @ResearchAgent unit unit := mkResearchAgent (Some "gk") (Some "tk") tt tt.

Definition test_system : @ResearchSystem unit unit unit :=
  mkResearchSystem test_agent (mkAnalystAgent (Some "gk2") tt).

(** Every call succeeds. *)
Definition svc_ok := mock all_keys (fun _ => one_result) (fun _ => sum_reply) report_reply.

(** The search raises for the second sub-query only. *)
Definition svc_search_fails :=
  mock all_keys (fun n => if Nat.eqb n 1 then Raise boom else one_result) (fun _ => sum_reply) report_reply.

(** The summarizer raises for the second sub-query. *)
Definition svc_summarizer_fails :=
  mock all_keys (fun _ => one_result) (fun n => if Nat.eqb n 1 then Raise boom else sum_reply) report_reply.

(** No search finds anything. *)
Definition svc_no_results := mock all_keys (fun _ => zero_results) (fun _ => sum_reply) report_reply.


(** The Tavily key is absent, the other two are set. *)
Definition svc_no_tavily_key := mock no_tavily_key (fun _ => one_result) (fun _ => sum_reply) report_reply.

(** No key is set. *)
Definition svc_no_keys := mock ∅ (fun _ => one_result) (fun _ => sum_reply) report_reply.

(** Runs with the test doubles, on the topic of the spec's scenario. *)
Definition TOPIC : string := "AI in Healthcare".

Definition research_with (svc : @Services Mock unit unit unit) :=
  run (research_topic svc test_agent TOPIC) fresh.

Definition pipeline_with (svc : @Services Mock unit unit unit) :=
  run (run_full_research svc TOPIC) fresh.

Definition constructed_with (svc : @Services Mock unit unit unit) :=
  run (ResearchSystem_init svc) fresh.

(** ** Further observations on a run *)

(** The client constructions of a log, with their outcome. *)
Definition constructions (log : list Call) : list (string * Result unit) :=
  omap (fun c => match c with CallNew what r => Some (what, r) | _ => None end) log.

(** The four constructions of a [ResearchSystem()] that succeeds, in the
    order of lines 48, 53, 127 and 128. *)
Definition CONSTRUCTED : list Call :=
  [CallNew "ChatGroq" (Ok tt); CallNew "TavilyClient" (Ok tt);
   CallNew "genai.configure" (Ok tt); CallNew "GenerativeModel" (Ok tt)].

(** The calls of a [ResearchSystem()] that raises [e]: nothing when the
    secrets store cannot be read or a research key is missing, the two
    research clients when the Gemini key is, and otherwise the clients
    built before the one whose construction raised. *)
Inductive failed_construction : list Call -> Exception -> Prop :=
| failed_secrets e :
    failed_construction [] e
| failed_research_keys :
    failed_construction [] (ValueError MISSING_RESEARCH_KEYS)
| failed_gemini_key :
    failed_construction (take 2 CONSTRUCTED) (ValueError MISSING_GEMINI_KEY)
| failed_client n what e :
    (n < 4)%nat ->
    failed_construction (take n CONSTRUCTED ++ [CallNew what (Raise e)]) e.

(** Every search request of a log asks for depth "advanced" and at most
    three results. *)
Definition search_parameters_fixed (log : list Call) : Prop :=
  Forall (fun c => match c with
                   | CallSearch _ depth n _ => depth = "advanced" /\ n = 3%Z
                   | _ => True
                   end) log.

(** [c in s] for a character. *)
Fixpoint has_char (c : ascii) (s : string) : bool :=
  match s with
  | EmptyString => false
  | String x rest => Ascii.eqb x c || has_char c rest
  end.

(** More test doubles: a report model that raises, a search without
    results for the second sub-query, a ChatGroq constructor that raises,
    an environment without the Gemini key, a secrets store whose empty
    Groq entry stands before a set environment variable, no secrets file
    at all with the three keys in the environment, and a search
    interrupted from the keyboard. *)
Definition svc_report_fails :=
  mock all_keys (fun _ => one_result) (fun _ => sum_reply) (Raise boom).

Definition svc_second_empty :=
  mock all_keys (fun n => if Nat.eqb n 1 then zero_results else one_result)
       (fun _ => sum_reply) report_reply.

Definition svc_groq_down : @Services Mock unit unit unit :=
  {| st_secrets := Ok ∅;
     os_environ := all_keys;
     new_ChatGroq := fun _ _ _ w => (Raise boom, w);
     new_TavilyClient := new_TavilyClient svc_ok;
     tavily_search := tavily_search svc_ok;
     llm_invoke := llm_invoke svc_ok;
     genai_configure := genai_configure svc_ok;
     new_GenerativeModel := new_GenerativeModel svc_ok;
     generate_content := generate_content svc_ok;
     now_strftime := now_strftime svc_ok |}.

Definition no_gemini_key : gmap string string :=
  {[ "GROQ_API_KEY" := "gk"; "TAVILY_API_KEY" := "tk" ]}.

Definition svc_no_gemini_key :=
  mock no_gemini_key (fun _ => one_result) (fun _ => sum_reply) report_reply.

Definition svc_empty_secret : @Services Mock unit unit unit :=
  {| st_secrets := Ok {[ "GROQ_API_KEY" := EmptyString ]};
     os_environ := all_keys;
     new_ChatGroq := new_ChatGroq svc_ok;
     new_TavilyClient := new_TavilyClient svc_ok;
     tavily_search := tavily_search svc_ok;
     llm_invoke := llm_invoke svc_ok;
     genai_configure := genai_configure svc_ok;
     new_GenerativeModel := new_GenerativeModel svc_ok;
     generate_content := generate_content svc_ok;
     now_strftime := now_strftime svc_ok |}.

Definition secrets_not_found : Exception :=
  mkException "StreamlitSecretNotFoundError" "No secrets found." true.

Definition svc_no_secrets_file : @Services Mock unit unit unit :=
  {| st_secrets := Raise secrets_not_found;
     os_environ := all_keys;
     new_ChatGroq := new_ChatGroq svc_ok;
     new_TavilyClient := new_TavilyClient svc_ok;
     tavily_search := tavily_search svc_ok;
     llm_invoke := llm_invoke svc_ok;
     genai_configure := genai_configure svc_ok;
     new_GenerativeModel := new_GenerativeModel svc_ok;
     generate_content := generate_content svc_ok;
     now_strftime := now_strftime svc_ok |}.

Definition svc_interrupted :=
  mock all_keys (fun n => if Nat.eqb n 1 then Raise KeyboardInterrupt else one_result)
       (fun _ => sum_reply) report_reply.

(** ** The page of [app.py]: markdown to HTML

    [convert_markdown_to_html] is applied to the text [run_full_research]
    returned.  Its five [re.sub] passes are written as the matchers they
    are: in every pattern [.] is any character but the line feed, so no
    match holds a line feed, and [re.sub] replaces the matches it finds
    from left to right, resuming after each one. *)

Definition LF : ascii := "010"%char.
Definition STAR : ascii := "*"%char.
Definition HASH : ascii := "#"%char.

(** [text.split('\n')] *)
Fixpoint split_lines (s : string) : list string :=
  match s with
  | EmptyString => [EmptyString]
  | String c rest =>
      if Ascii.eqb c LF then EmptyString :: split_lines rest
      else match split_lines rest with
           | line :: lines => String c line :: lines
           | [] => [String c EmptyString]
           end
  end.

(** [s[n:]] *)
Fixpoint slice_from (n : nat) (s : string) : string :=
  match n, s with
  | O, _ => s
  | Datatypes.S _, EmptyString => EmptyString
  | Datatypes.S k, String _ rest => slice_from k rest
  end.

(** What a heading pass (lines 33-35: the marker at the start of a line,
    then a greedy group up to the end of the line) makes of one line: with
    [re.MULTILINE] the anchors are the ends of the lines, and the group is
    the whole rest of the line, which must hold a character. *)
Definition heading_line (marker tag line : string) : string :=
  if String.prefix marker line && (String.length marker <? String.length line)%nat
  then "<" +:+ tag +:+ ">" +:+ slice_from (String.length marker) line +:+ "</" +:+ tag +:+ ">"
  else line.

Definition re_sub_heading (marker tag text : string) : string :=
  join nl (map (heading_line marker tag) (split_lines text)).

(** The bold pattern of line 37 is two stars, a lazy group of one
    character or more, two stars.  Once the group holds a character it
    ends at the first place where two stars follow, and fails at a line
    feed or at the end of the text.  The result is the rest of the group
    and the text after the closing stars. *)
Fixpoint bold_close (s : string) : option (string * string) :=
  match s with
  | EmptyString => None
  | String c rest =>
      if String.prefix "**" s then Some (EmptyString, slice_from 2 s)
      else if Ascii.eqb c LF then None
      else match bold_close rest with
           | Some (group, after) => Some (String c group, after)
           | None => None
           end
  end.

(** A match of the bold pattern at the start of [s]: its group and the
    text after it. *)
Definition bold_match (s : string) : option (string * string) :=
  if String.prefix "**" s then
    match slice_from 2 s with
    | EmptyString => None
    | String c rest =>
        if Ascii.eqb c LF then None
        else match bold_close rest with
             | Some (group, after) => Some (String c group, after)
             | None => None
             end
    end
  else None.

(** The bold pass of line 37: each match becomes its group between
    [<strong>] and [</strong>]; at most [fuel] positions are scanned. *)
Fixpoint re_sub_bold_from (fuel : nat) (s : string) : string :=
  match fuel with
  | O => s
  | Datatypes.S fuel =>
      match bold_match s with
      | Some (group, after) =>
          "<strong>" +:+ group +:+ "</strong>" +:+ re_sub_bold_from fuel after
      | None =>
          match s with
          | EmptyString => EmptyString
          | String c rest => String c (re_sub_bold_from fuel rest)
          end
      end
  end.

Definition re_sub_bold (s : string) : string := re_sub_bold_from (String.length s) s.

(** The italic pattern of line 39 is a star that no star follows, a lazy
    group of one character or more, a star.  Once the group holds a
    character it ends at the first star. *)
Fixpoint italic_close (s : string) : option (string * string) :=
  match s with
  | EmptyString => None
  | String c rest =>
      if Ascii.eqb c STAR then Some (EmptyString, rest)
      else if Ascii.eqb c LF then None
      else match italic_close rest with
           | Some (group, after) => Some (String c group, after)
           | None => None
           end
  end.

(** A match of the italic pattern at the start of [s]: its group and the
    text after it. *)
Definition italic_match (s : string) : option (string * string) :=
  match s with
  | String o (String c rest) =>
      if Ascii.eqb o STAR && negb (Ascii.eqb c STAR) && negb (Ascii.eqb c LF) then
        match italic_close rest with
        | Some (group, after) => Some (String c group, after)
        | None => None
        end
      else None
  | _ => None
  end.

(** The italic pass of line 39: each match becomes its group between
    [<em>] and [</em>]; at most [fuel] positions are scanned. *)
Fixpoint re_sub_italic_from (fuel : nat) (s : string) : string :=
  match fuel with
  | O => s
  | Datatypes.S fuel =>
      match italic_match s with
      | Some (group, after) =>
          "<em>" +:+ group +:+ "</em>" +:+ re_sub_italic_from fuel after
      | None =>
          match s with
          | EmptyString => EmptyString
          | String c rest => String c (re_sub_italic_from fuel rest)
          end
      end
  end.

Definition re_sub_italic (s : string) : string := re_sub_italic_from (String.length s) s.

(** The [for line in lines] loop (lines 44-56), with the flag [in_list]
    and the list [html_lines] built so far; the closing of a list that is
    still open when the lines end is the [if in_list] after the loop. *)
Fixpoint bullets_loop (lines : list string) (in_list : bool) (html_lines : list string)
  : list string :=
  match lines with
  | [] => if in_list then (html_lines ++ ["</ul>"])%list else html_lines
  | line :: rest =>
      if String.prefix "* " line then
        let html_lines := if in_list then html_lines else (html_lines ++ ["<ul>"])%list in
        bullets_loop rest true (html_lines ++ ["<li>" +:+ slice_from 2 line +:+ "</li>"])%list
      else
        let html_lines := if in_list then (html_lines ++ ["</ul>"])%list else html_lines in
        bullets_loop rest false (html_lines ++ [line])%list
  end.

(** [convert_markdown_to_html] (app.py, lines 31-57) *)
Definition convert_markdown_to_html (text : string) : string :=
  let text := re_sub_heading "### " "h3" text in
  let text := re_sub_heading "## " "h2" text in
  let text := re_sub_heading "# " "h1" text in
  let text := re_sub_bold text in
  let text := re_sub_italic text in
  let lines := split_lines text in
  join "<br>" (bullets_loop lines false []).

(** How [convert_markdown_to_html] renders a line without stars. *)
Definition heading_of (line : string) : string :=
  heading_line "# " "h1" (heading_line "## " "h2" (heading_line "### " "h3" line)).

(** No star from the start of [s] to the end of its first line. *)
Fixpoint line_star_free (s : string) : bool :=
  match s with
  | EmptyString => true
  | String c rest =>
      if Ascii.eqb c LF then true
      else if Ascii.eqb c STAR then false
      else line_star_free rest
  end.

(** No line of [s] holds two stars. *)
Fixpoint lone_stars (s : string) : bool :=
  match s with
  | EmptyString => true
  | String c rest => (if Ascii.eqb c STAR then line_star_free rest else true) && lone_stars rest
  end.

(** The number of entries of [l] equal to [x]. *)
Definition occurrences (x : string) (l : list string) : nat :=
  length (List.filter (String.eqb x) l).

(** ** Texts *)

Lemma format_item_head it :
  exists rest, format_item it = String "T" rest.
Proof. unfold format_item. simpl. eauto. Qed.

Lemma search_text_no_results r :
  String.eqb (search_text r) NO_RESULTS = search_empty r.
Proof.
  destruct r as [resp|e]; simpl.
  - destruct (default [] (results resp)) as [|it items]; [reflexivity|].
    apply String.eqb_neq. unfold join. simpl.
    destruct (format_item_head it) as [rest ->].
    destruct (map format_item items); simpl; discriminate.
  - reflexivity.
Qed.

Lemma search_nonempty_not_empty r :
  search_nonempty r = true -> search_empty r = false.
Proof.
  destruct r as [resp|e]; simpl; [|done].
  by destruct (default [] (results resp)).
Qed.

Lemma search_raised_not_empty r :
  search_raised r = true -> search_empty r = false.
Proof. by destruct r. Qed.

Lemma search_raised_caught r : search_raised r = true -> escapes r = false.
Proof. destruct r as [resp|e]; simpl; [done|]. by intros ->. Qed.

Lemma search_empty_caught r : search_empty r = true -> escapes r = false.
Proof. by destruct r. Qed.

Lemma string_length_app a b :
  String.length (a +:+ b) = (String.length a + String.length b)%nat.
Proof.
  induction a as [|c a IH]; [done|].
  change (Datatypes.S (String.length (a +:+ b)) =
          Datatypes.S (String.length a + String.length b)).
  by f_equal.
Qed.

Lemma string_app_assoc a b c : (a +:+ b) +:+ c = a +:+ b +:+ c.
Proof.
  induction a as [|x a IH]; [done|].
  change (String x ((a +:+ b) +:+ c) = String x (a +:+ b +:+ c)). by f_equal.
Qed.

Lemma string_prefix_app a rest : String.prefix a (a +:+ rest) = true.
Proof.
  induction a as [|x a IH]; [by destruct rest|].
  change (String x a +:+ rest) with (String x (a +:+ rest)). simpl.
  destruct (ascii_dec x x); [exact IH|done].
Qed.

Lemma prefix_app_same x a b :
  String.prefix a b = true -> String.prefix (x +:+ a) (x +:+ b) = true.
Proof.
  intros Hp. induction x as [|c x IH]; [exact Hp|].
  change (String.prefix (String c (x +:+ a)) (String c (x +:+ b)) = true). simpl.
  destruct (ascii_dec c c); [exact IH|done].
Qed.

Lemma contains_of_prefix needle hay :
  String.prefix needle hay = true -> contains needle hay = true.
Proof. intros Hp. destruct hay; cbn [contains]; by rewrite Hp. Qed.

Lemma contains_skip needle before hay :
  contains needle hay = true -> contains needle (before +:+ hay) = true.
Proof.
  intros Hc. induction before as [|c before IH]; [exact Hc|].
  change (String c before +:+ hay) with (String c (before +:+ hay)).
  unfold contains; fold contains. rewrite IH. by destruct (String.prefix _ _).
Qed.

Lemma contains_app needle before after :
  contains needle (before +:+ needle +:+ after) = true.
Proof. apply contains_skip, contains_of_prefix, string_prefix_app. Qed.

Lemma searches_app l1 l2 : searches (l1 ++ l2) = (searches l1 ++ searches l2)%list.
Proof. apply omap_app. Qed.

Lemma invokes_app l1 l2 : invokes (l1 ++ l2) = (invokes l1 ++ invokes l2)%list.
Proof. apply omap_app. Qed.

Lemma generates_app l1 l2 : generates (l1 ++ l2) = (generates l1 ++ generates l2)%list.
Proof. apply omap_app. Qed.

(** ** Handled and unhandled exceptions *)

Lemma outcome_caught {A} (text : Result A -> string) r :
  escapes r = false -> outcome text r = Ok (text r).
Proof.
  destruct r as [a|e]; simpl; [done|].
  by destruct (is_Exception e).
Qed.

Lemma outcome_ok {A} (text : Result A -> string) r txt :
  outcome text r = Ok txt -> txt = text r /\ escapes r = false.
Proof.
  destruct r as [a|e]; simpl; [by intros [= <-]|].
  destruct (is_Exception e); [by intros [= <-]|done].
Qed.

Lemma outcome_raise {A} (text : Result A -> string) r e :
  outcome text r = Raise e -> r = Raise e /\ is_Exception e = false.
Proof.
  destruct r as [a|e0]; simpl; [done|].
  destruct (is_Exception e0) eqn:Hclass; [done|]. by intros [= <-].
Qed.

(** ** Runs of the stages *)

Section Runs.

Context {World ChatGroq TavilyClient GenerativeModel : Type}.
Variable S : @Services World ChatGroq TavilyClient GenerativeModel.

Lemma extends_nil (s : State World) : extends s s [].
Proof. unfold extends. by rewrite app_nil_r. Qed.

Lemma extends_trans (s1 s2 s3 : State World) l1 l2 :
  extends s1 s2 l1 -> extends s2 s3 l2 -> extends s1 s3 (l1 ++ l2).
Proof. unfold extends. intros H1 H2. by rewrite H2, H1, app_assoc. Qed.

(** [_search_web] makes one search request; it returns a text unless the
    request raised outside the class of its handler. *)
Lemma _search_web_run self q s :
  exists r s',
    _search_web S self q s = (outcome search_text r, s') /\
    extends s s' [CallSearch q "advanced" 3 r].
Proof.
  unfold _search_web, try_except, bind, request, ret, extends.
  destruct (tavily_search S (tavily self) q "advanced" 3 (world s)) as [[resp|e] w].
  - exists (Ok resp), (mkState w (calls s ++ [CallSearch q "advanced" 3 (Ok resp)])).
    simpl. split; [|done].
    by destruct (default [] (results resp)).
  - exists (Raise e), (mkState w (calls s ++ [CallSearch q "advanced" 3 (Raise e)])).
    simpl. by destruct (is_Exception e).
Qed.

Lemma research_loop_run self topic queries :
  forall acc s, exists log out s',
    research_loop S self topic queries acc s = (out, s') /\
    extends s s' log /\
    loop_run topic queries acc log out.
Proof.
  induction queries as [|q rest IH]; intros acc s.
  - exists [], (Ok acc), s. split; [done|]. split; [apply extends_nil|constructor].
  - destruct (_search_web_run self q s) as (r & s1 & Hweb & Hext1).
    cbn [research_loop]. unfold bind at 1. rewrite Hweb.
    destruct (escapes r) eqn:Hesc.
    { destruct r as [resp|e]; [done|]. simpl in Hesc. apply negb_true_iff in Hesc.
      simpl. rewrite Hesc.
      eexists [_], (Raise e), s1. split; [done|]. split; [done|].
      by apply loop_interrupt. }
    rewrite (outcome_caught _ _ Hesc), search_text_no_results.
    destruct (search_empty r) eqn:Hempty.
    + destruct (IH acc s1) as (log & out & s' & Hrun & Hext & Hloop).
      exists (CallSearch q "advanced" 3 r :: log), out, s'.
      split; [done|]. split; [apply (extends_trans _ _ _ _ _ Hext1 Hext)|].
      by constructor.
    + unfold bind at 1, request.
      destruct (llm_invoke S (llm self) (summary_messages topic q (search_text r)) (world s1))
        as [[msg|e] w].
      * set (s2 := mkState w _).
        destruct (IH (acc ++ [content msg])%list s2) as (log & out & s' & Hrun & Hext & Hloop).
        eexists (_ :: _ :: log), out, s'.
        split; [done|]. split; [|by apply loop_summarize].
        apply (extends_trans _ s1 _ [_] (_ :: log) Hext1).
        apply (extends_trans s1 s2 _ [_] log); [done|exact Hext].
      * eexists [_; _], (Raise e), _.
        split; [done|]. split; [|by apply loop_abort].
        apply (extends_trans _ s1 _ [_] [_] Hext1). done.
Qed.

(** [research_topic] ends as its loop does: with the text of the loop's
    outcome, or with the exception its handler is not for. *)
Lemma research_topic_run self topic s :
  exists log out s',
    research_topic S self topic s = (outcome research_text out, s') /\
    extends s s' log /\
    loop_run topic (sub_queries topic) [] log out.
Proof.
  destruct (research_loop_run self topic (sub_queries topic) [] s)
    as (log & out & s' & Hrun & Hext & Hloop).
  exists log, out, s'. split; [|done].
  unfold research_topic, try_except, bind. rewrite Hrun.
  destruct out as [[|x l]|e]; try reflexivity.
  simpl. by destruct (is_Exception e).
Qed.

(** [create_report] makes one request to the report model. *)
Lemma create_report_run self data topic s :
  exists r s',
    create_report S self data topic s = (outcome report_text r, s') /\
    extends s s'
      [CallGenerate (report_prompt data topic (now_strftime S "%Y-%m-%d" (world s)))
                    gen_config r].
Proof.
  unfold create_report, try_except, bind, read, request, ret, extends.
  destruct (generate_content S (model self) _ gen_config (world s)) as [[resp|e] w] eqn:Hgen.
  - exists (Ok resp). eexists. simpl. done.
  - exists (Raise e). eexists. simpl. by destruct (is_Exception e).
Qed.

(** The pipeline: a failed construction gives the failure document, or
    the exception itself when the handler is not for it; otherwise the
    research text goes to [create_report], whose outcome is the
    pipeline's, unless [research_topic] let an exception through. *)
Lemma run_full_research_run topic s :
  match ResearchSystem_init S s with
  | (Raise e, s1) =>
      run_full_research S topic s =
        (if is_Exception e then Ok (pipeline_failed e) else Raise e, s1)
  | (Ok system, s1) =>
      match research_topic S (researcher system) topic s1 with
      | (Ok data, s2) =>
          run_full_research S topic s = create_report S (analyst system) data topic s2
      | (Raise e, s2) =>
          is_Exception e = false /\ run_full_research S topic s = (Raise e, s2)
      end
  end.
Proof.
  unfold run_full_research, run_full_research_body, try_except, bind.
  destruct (ResearchSystem_init S s) as [[system|e] s1]; [|by destruct (is_Exception e)].
  destruct (research_topic_run (researcher system) topic s1)
    as (log & out & s2 & Hres & _).
  rewrite Hres.
  destruct (outcome research_text out) as [data|e] eqn:Hout.
  - destruct (create_report_run (analyst system) data topic s2) as (r & s3 & -> & _).
    destruct (outcome report_text r) as [report|e] eqn:Hrep; [done|].
    apply outcome_raise in Hrep as [_ ->]. done.
  - apply outcome_raise in Hout as [_ Hclass]. by rewrite Hclass.
Qed.

End Runs.

(** ** Construction of the system *)

Lemma constructions_app l1 l2 :
  constructions (l1 ++ l2) = (constructions l1 ++ constructions l2)%list.
Proof. apply omap_app. Qed.

Lemma loop_run_constructions topic queries acc log out :
  loop_run topic queries acc log out -> constructions log = [].
Proof. induction 1; done. Qed.

Section Construction.

Context {World ChatGroq TavilyClient GenerativeModel : Type}.
Variable S : @Services World ChatGroq TavilyClient GenerativeModel.

(** Either no lookup in the secrets store returns, or every one does. *)
Lemma secret_cases :
  (exists e, st_secrets S = Raise e /\ forall key, secret S key = Raise e)
  \/ (exists found : string -> option string, forall key, secret S key = Ok (found key)).
Proof.
  unfold secret. destruct (st_secrets S) as [store|e].
  - right. by eexists (fun key => _).
  - left. by exists e.
Qed.

(** A [ResearchSystem()] that succeeds has found the three keys and has
    built the four clients, in order, without any other call. *)
Lemma ResearchSystem_init_ok s system s' :
  ResearchSystem_init S s = (Ok system, s') ->
  calls s' = (calls s ++ CONSTRUCTED)%list /\
  exists groq tav gem,
    secret S "GROQ_API_KEY" = Ok groq /\ truthy groq = true /\
    secret S "TAVILY_API_KEY" = Ok tav /\ truthy tav = true /\
    secret S "GEMINI_API_KEY" = Ok gem /\ truthy gem = true.
Proof.
  unfold ResearchSystem_init, ResearchAgent_init, AnalystAgent_init.
  destruct secret_cases as [(e0 & _ & Hsec)|(found & Hsec)]; rewrite !Hsec;
    unfold bind, of_result, request, ret, raise; [discriminate|].
  destruct (truthy (found "GROQ_API_KEY")) eqn:Hg;
    destruct (truthy (found "TAVILY_API_KEY")) eqn:Ht;
    cbn [andb negb]; try discriminate.
  destruct (new_ChatGroq S _ _ _ (world s)) as [[l|e1] w1]; cbn; [|discriminate].
  destruct (new_TavilyClient S _ w1) as [[t|e2] w2]; cbn; [|discriminate].
  destruct (truthy (found "GEMINI_API_KEY")) eqn:Hm; cbn; [|discriminate].
  destruct (genai_configure S _ w2) as [[u|e3] w3]; cbn; [|discriminate].
  destruct (new_GenerativeModel S _ w3) as [[m|e4] w4]; cbn; [|discriminate].
  intros [= <- <-]. cbn. rewrite <- !app_assoc. split; [done|].
  by exists (found "GROQ_API_KEY"), (found "TAVILY_API_KEY"), (found "GEMINI_API_KEY").
Qed.

(** A [ResearchSystem()] that raises does so on the first problem it
    meets: the secrets store, the research keys, then the two research
    clients, then the Gemini key, then the two Gemini calls. *)
Lemma ResearchSystem_init_raise s e s' :
  ResearchSystem_init S s = (Raise e, s') ->
  exists log,
    calls s' = (calls s ++ log)%list /\
    ((log = [] /\ st_secrets S = Raise e)
     \/ (log = [] /\ e = ValueError MISSING_RESEARCH_KEYS /\
         exists groq tav,
           secret S "GROQ_API_KEY" = Ok groq /\ secret S "TAVILY_API_KEY" = Ok tav /\
           truthy groq && truthy tav = false)
     \/ (log = take 2 CONSTRUCTED /\ e = ValueError MISSING_GEMINI_KEY /\
         exists gem, secret S "GEMINI_API_KEY" = Ok gem /\ truthy gem = false)
     \/ (exists n what, (n < 4)%nat /\
           log = (take n CONSTRUCTED ++ [CallNew what (Raise e)])%list)).
Proof.
  unfold ResearchSystem_init, ResearchAgent_init, AnalystAgent_init.
  destruct secret_cases as [(e0 & Hstore & Hsec)|(found & Hsec)]; rewrite !Hsec;
    unfold bind, of_result, request, ret, raise.
  { intros [= <- <-]. exists []. rewrite app_nil_r. split; [done|]. by left. }
  destruct (truthy (found "GROQ_API_KEY") && truthy (found "TAVILY_API_KEY")) eqn:Hkeys;
    cbn [negb].
  - destruct (new_ChatGroq S _ _ _ (world s)) as [[l|e1] w1]; cbn.
    + destruct (new_TavilyClient S _ w1) as [[t|e2] w2]; cbn.
      * destruct (truthy (found "GEMINI_API_KEY")) eqn:Hm; cbn.
        -- destruct (genai_configure S _ w2) as [[u|e3] w3]; cbn.
           ++ destruct (new_GenerativeModel S _ w3) as [[m|e4] w4]; cbn; [discriminate|].
              intros [= <- <-]. cbn. eexists. rewrite <- !app_assoc. split; [done|].
              do 3 right. exists 3%nat, "GenerativeModel". split; [lia|done].
           ++ intros [= <- <-]. cbn. eexists. rewrite <- !app_assoc. split; [done|].
              do 3 right. exists 2%nat, "genai.configure". split; [lia|done].
        -- intros [= <- <-]. cbn. eexists. rewrite <- !app_assoc. split; [done|].
           right. right. left. do 2 (split; [done|]). by exists (found "GEMINI_API_KEY").
      * intros [= <- <-]. cbn. eexists. rewrite <- !app_assoc. split; [done|].
        do 3 right. exists 1%nat, "TavilyClient". split; [lia|done].
    + intros [= <- <-]. cbn. eexists. split; [done|].
      do 3 right. exists 0%nat, "ChatGroq". split; [lia|done].
  - intros [= <- <-]. exists []. rewrite app_nil_r. split; [done|]. right. left.
    do 2 (split; [done|]). by exists (found "GROQ_API_KEY"), (found "TAVILY_API_KEY").
Qed.

Lemma ResearchSystem_init_failed s e s' :
  ResearchSystem_init S s = (Raise e, s') ->
  exists log, calls s' = (calls s ++ log)%list /\ failed_construction log e.
Proof.
  intros Hinit.
  destruct (ResearchSystem_init_raise _ _ _ Hinit) as (log & Hc & Hcase).
  exists log. split; [done|].
  destruct Hcase as [(-> & _)|[(-> & -> & _)|[(-> & -> & _)|(n & what & Hn & ->)]]];
    by constructor.
Qed.

End Construction.

(** ** The per-query loop *)

Section Loop.

Variable topic : string.

Lemma searches_search q d n r log :
  searches (CallSearch q d n r :: log) = (q, r) :: searches log.
Proof. reflexivity. Qed.

Lemma searches_invoke m r log : searches (CallInvoke m r :: log) = searches log.
Proof. reflexivity. Qed.

Lemma invokes_search q d n r log : invokes (CallSearch q d n r :: log) = invokes log.
Proof. reflexivity. Qed.

Lemma invokes_invoke m r log : invokes (CallInvoke m r :: log) = (m, r) :: invokes log.
Proof. reflexivity. Qed.

Lemma summaries_of_search q d n r log :
  summaries_of (CallSearch q d n r :: log) = summaries_of log.
Proof. reflexivity. Qed.

Lemma summaries_of_invoke m msg log :
  summaries_of (CallInvoke m (Ok msg) :: log) = content msg :: summaries_of log.
Proof. reflexivity. Qed.

(** The loop sends nothing to the report model. *)
Lemma loop_run_generates queries acc log out :
  loop_run topic queries acc log out -> generates log = [].
Proof. induction 1; done. Qed.

(** With no summarizer failure and no search interrupted, the loop
    searches every sub-query in order, summarizes exactly those whose
    search text is not the no-results sentinel, and returns the summaries
    in that order. *)
Lemma loop_run_ok queries acc log out :
  loop_run topic queries acc log out ->
  Forall (fun mr => is_ok mr.2 = true) (invokes log) ->
  Forall (fun qr => escapes qr.2 = false) (searches log) ->
  map fst (searches log) = queries /\
  out = Ok (acc ++ summaries_of log)%list /\
  map fst (invokes log) =
    map (fun qr => summary_messages topic qr.1 (search_text qr.2))
        (List.filter (fun qr => negb (search_empty qr.2)) (searches log)).
Proof.
  induction 1 as [acc|q rest acc r log out Hempty Hloop IH
                  |q rest acc r msg log out Hempty Hesc Hloop IH
                  |q rest acc r e Hempty Hesc
                  |q rest acc e Hclass]; intros Hok Hcaught.
  - by rewrite app_nil_r.
  - rewrite searches_search, invokes_search, summaries_of_search in *.
    apply Forall_cons in Hcaught as [_ Hcaught].
    destruct (IH Hok Hcaught) as (Hq & Hout & Hm).
    cbn [map fst List.filter snd]. rewrite Hempty. cbn [negb]. by rewrite Hq.
  - rewrite searches_search, searches_invoke, invokes_search, invokes_invoke,
      summaries_of_search, summaries_of_invoke in *.
    apply Forall_cons in Hok as [_ Hok].
    apply Forall_cons in Hcaught as [_ Hcaught].
    destruct (IH Hok Hcaught) as (Hq & Hout & Hm).
    cbn [map fst List.filter snd]. rewrite Hempty. cbn [negb map fst snd].
    rewrite Hq, Hout, <- app_assoc, Hm. done.
  - rewrite invokes_search, invokes_invoke in Hok.
    apply Forall_cons in Hok as [Hbad _]. done.
  - rewrite searches_search in Hcaught.
    apply Forall_cons in Hcaught as [Hbad _]. simpl in Hbad. by rewrite Hclass in Hbad.
Qed.

(** A summarizer call that raises is the last call of the loop, which
    ends with that exception. *)
Lemma loop_run_raise queries acc log out :
  loop_run topic queries acc log out ->
  forall m e, (m, Raise e) ∈ invokes log ->
  out = Raise e /\ last log = Some (CallInvoke m (Raise e)).
Proof.
  induction 1 as [acc|q rest acc r log out Hempty Hloop IH
                  |q rest acc r msg log out Hempty Hesc Hloop IH
                  |q rest acc r e0 Hempty Hesc
                  |q rest acc e0 Hclass]; intros m e Hin.
  - by apply elem_of_nil in Hin.
  - rewrite invokes_search in Hin.
    destruct (IH m e Hin) as [-> Hlast]. split; [done|].
    by rewrite last_cons, Hlast.
  - rewrite invokes_search, invokes_invoke in Hin.
    apply elem_of_cons in Hin as [[=]|Hin].
    destruct (IH m e Hin) as [-> Hlast]. split; [done|].
    by rewrite !last_cons, Hlast.
  - rewrite invokes_search, invokes_invoke in Hin.
    apply elem_of_cons in Hin as [[= -> ->]|Hin]; [done|].
    by apply elem_of_nil in Hin.
  - rewrite invokes_search in Hin. by apply elem_of_nil in Hin.
Qed.

(** A search whose exception [_search_web] does not handle is the last
    call of the loop, which ends with that exception. *)
Lemma loop_run_interrupted queries acc log out :
  loop_run topic queries acc log out ->
  forall q e, (q, Raise e) ∈ searches log -> is_Exception e = false ->
  out = Raise e /\ last log = Some (CallSearch q "advanced" 3 (Raise e)).
Proof.
  induction 1 as [acc|q0 rest acc r log out Hempty Hloop IH
                  |q0 rest acc r msg log out Hempty Hesc Hloop IH
                  |q0 rest acc r e0 Hempty Hesc
                  |q0 rest acc e0 Hclass]; intros q e Hin He.
  - by apply elem_of_nil in Hin.
  - rewrite searches_search in Hin.
    apply elem_of_cons in Hin as [[= -> <-]|Hin]; [by simpl in Hempty|].
    destruct (IH q e Hin He) as [-> Hlast]. split; [done|].
    by rewrite last_cons, Hlast.
  - rewrite searches_search, searches_invoke in Hin.
    apply elem_of_cons in Hin as [[= -> <-]|Hin].
    { simpl in Hesc. by rewrite He in Hesc. }
    destruct (IH q e Hin He) as [-> Hlast]. split; [done|].
    by rewrite !last_cons, Hlast.
  - rewrite searches_search, searches_invoke in Hin.
    apply elem_of_cons in Hin as [[= -> <-]|Hin].
    { simpl in Hesc. by rewrite He in Hesc. }
    by apply elem_of_nil in Hin.
  - rewrite searches_search in Hin.
    apply elem_of_cons in Hin as [[= -> ->]|Hin]; [done|].
    by apply elem_of_nil in Hin.
Qed.

(** A loop that ends with an exception ends with the call that raised
    it: a summarizer call, or a search interrupted outside the class of
    [_search_web]'s handler. *)
Lemma loop_run_last queries acc log out :
  loop_run topic queries acc log out ->
  forall e, out = Raise e ->
  exists c, last log = Some c /\ call_raised c = Some e /\
    (forall q d n r, c = CallSearch q d n r -> is_Exception e = false).
Proof.
  induction 1 as [acc|q rest acc r log out Hempty Hloop IH
                  |q rest acc r msg log out Hempty Hesc Hloop IH
                  |q rest acc r e0 Hempty Hesc
                  |q rest acc e0 Hclass]; intros e Hout.
  - done.
  - destruct (IH e Hout) as (c & Hlast & Hc). exists c.
    by rewrite last_cons, Hlast.
  - destruct (IH e Hout) as (c & Hlast & Hc). exists c.
    by rewrite !last_cons, Hlast.
  - injection Hout as ->. eexists. split; [done|]. split; [done|]. done.
  - injection Hout as ->. eexists. split; [done|]. split; [done|]. done.
Qed.

(** A call of the loop that raises outside [Exception] is its last call,
    and the loop ends with that exception. *)
Lemma loop_run_escapes queries acc log out :
  loop_run topic queries acc log out ->
  forall c, c ∈ log -> call_escapes c = true ->
  exists e, call_raised c = Some e /\ is_Exception e = false /\
            out = Raise e /\ last log = Some c.
Proof.
  induction 1 as [acc|q rest acc r log out Hempty Hloop IH
                  |q rest acc r msg log out Hempty Hesc Hloop IH
                  |q rest acc r e0 Hempty Hesc
                  |q rest acc e0 Hclass]; intros c Hin Hc.
  - by apply elem_of_nil in Hin.
  - apply elem_of_cons in Hin as [->|Hin].
    { destruct r as [resp|e]; [done|by simpl in Hempty]. }
    destruct (IH c Hin Hc) as (e & He & Hclass & -> & Hlast).
    exists e. by rewrite last_cons, Hlast.
  - apply elem_of_cons in Hin as [->|Hin].
    { destruct r as [resp|e]; [done|]. unfold call_escapes in Hc. simpl in *. congruence. }
    apply elem_of_cons in Hin as [->|Hin]; [done|].
    destruct (IH c Hin Hc) as (e & He & Hclass & -> & Hlast).
    exists e. by rewrite !last_cons, Hlast.
  - apply elem_of_cons in Hin as [->|Hin].
    { destruct r as [resp|e]; [done|]. unfold call_escapes in Hc. simpl in *. congruence. }
    apply elem_of_cons in Hin as [->|Hin]; [|by apply elem_of_nil in Hin].
    exists e0. unfold call_escapes in Hc. simpl in Hc. apply negb_true_iff in Hc. done.
  - apply elem_of_cons in Hin as [->|Hin]; [|by apply elem_of_nil in Hin].
    by exists e0.
Qed.

End Loop.

(** A call that raised an exception outside [Exception] is a call that
    escapes. *)
Lemma last_call_escapes (log : list Call) c e :
  last log = Some c -> call_raised c = Some e -> is_Exception e = false ->
  Forall (fun c => call_escapes c = false) log -> False.
Proof.
  intros Hlast Hc He Hall.
  apply last_Some_elem_of in Hlast.
  rewrite Forall_forall in Hall. specialize (Hall c Hlast).
  unfold call_escapes in Hall. rewrite Hc, He in Hall. done.
Qed.

(** ** Slices *)

Lemma slice_to_length n s :
  String.length (slice_to n s) = Nat.min n (String.length s).
Proof.
  unfold slice_to. revert s.
  induction n as [|n IH]; intros [|c s]; simpl; try done.
  by rewrite IH.
Qed.



(** ** The search stage *)

Section SearchStage.

Context {World ChatGroq TavilyClient GenerativeModel : Type}.
Variable S : @Services World ChatGroq TavilyClient GenerativeModel.

Lemma _search_web_results self q s resp w :
  tavily_search S (tavily self) q "advanced" 3 (world s) = (Ok resp, w) ->
  _search_web S self q s =
    (Ok (search_text (Ok resp)),
     mkState w (calls s ++ [CallSearch q "advanced" 3 (Ok resp)])).
Proof.
  intros Hsearch. unfold _search_web, try_except, bind, request, ret.
  rewrite Hsearch. simpl. by destruct (default [] (results resp)).
Qed.


(** C10.  Whatever response the search provider gives, [_search_web]
    returns a text: a result entry without a title, content or url key is
    rendered with the text N/A in that field (the slice leaves the default
    content N/A as it is), and no entry makes it raise.  The only
    exception that leaves [_search_web] is one that the search call itself
    raised outside the class [Exception]. *)
Theorem _search_web_missing_fields self q s :
  (forall resp w,
     tavily_search S (tavily self) q "advanced" 3 (world s) = (Ok resp, w) ->
     (exists txt s', _search_web S self q s = (Ok txt, s')) /\
     forall it rest, results resp = Some (it :: rest) ->
     fst (_search_web S self q s) = Ok (join nl (map format_item (it :: rest)))) /\
  (forall e s', _search_web S self q s = (Raise e, s') ->
     fst (tavily_search S (tavily self) q "advanced" 3 (world s)) = Raise e /\
     is_Exception e = false) /\
  (forall it : SearchItem,
     format_item it =
       "Title: " +:+ match it !! "title" with Some t => t | None => "N/A" end +:+ nl +:+
       "Content: " +:+
         match it !! "content" with Some c => slice_to 1500 c | None => "N/A" end +:+ nl +:+
       "URL: " +:+ match it !! "url" with Some u => u | None => "N/A" end +:+ nl +:+ "---") /\
  slice_to 1500 "N/A" = "N/A" /\
  format_item ∅ =
    "Title: N/A" +:+ nl +:+ "Content: N/A" +:+ nl +:+ "URL: N/A" +:+ nl +:+ "---".
Proof.
  split; [|split; [|split; [|by vm_compute]]].
  - intros resp w Hsearch. rewrite (_search_web_results _ _ _ _ _ Hsearch).
    split; [eauto|]. intros it rest Hres. simpl. by rewrite Hres.
  - intros e s'. unfold _search_web, try_except, bind, request, ret.
    destruct (tavily_search S (tavily self) q "advanced" 3 (world s)) as [[resp|e0] w].
    + simpl. by destruct (default [] (results resp)).
    + simpl. destruct (is_Exception e0) eqn:Hclass; [done|]. by intros [= <- <-].
  - intros it. unfold format_item, item_get.
    by destruct (it !! "title"), (it !! "content"), (it !! "url").
Qed.

End SearchStage.


(** ** Construction and the outer boundary *)

Section Boundary.

Context {World ChatGroq TavilyClient GenerativeModel : Type}.
Variable S : @Services World ChatGroq TavilyClient GenerativeModel.


(** A run of the pipeline whose system was constructed: the calls of the
    construction, then those of the research loop, then, unless the loop
    was left by an exception that [research_topic] does not handle, one
    request to the report model, made with the text [research_topic]
    returned. *)
Lemma pipeline_log topic w system s1 :
  run (ResearchSystem_init S) w = (Ok system, s1) ->
  exists log out s2,
    calls s1 = CONSTRUCTED /\
    loop_run topic (sub_queries topic) [] log out /\
    research_topic S (researcher system) topic s1 = (outcome research_text out, s2) /\
    calls s2 = (CONSTRUCTED ++ log)%list /\
    (forall e, outcome research_text out = Raise e ->
       run (run_full_research S topic) w = (Raise e, s2)) /\
    (forall data, outcome research_text out = Ok data ->
       exists r s3,
         create_report S (analyst system) data topic s2 = (outcome report_text r, s3) /\
         run (run_full_research S topic) w = (outcome report_text r, s3) /\
         calls s3 =
           (CONSTRUCTED ++ log ++
            [CallGenerate (report_prompt data topic
                             (now_strftime S "%Y-%m-%d" (world s2))) gen_config r])%list).
Proof.
  intros Hinit. unfold run in *.
  destruct (ResearchSystem_init_ok S _ _ _ Hinit) as (Hc1 & _). simpl in Hc1.
  pose proof (run_full_research_run S topic (mkState w [])) as Hrun.
  rewrite Hinit in Hrun.
  destruct (research_topic_run S (researcher system) topic s1)
    as (log & out & s2 & Hres & Hext & Hloop).
  rewrite Hres in Hrun. unfold extends in Hext. rewrite Hc1 in Hext.
  exists log, out, s2. do 4 (split; [done|]). split.
  - intros e He. rewrite He in Hrun. by destruct Hrun as [_ ->].
  - intros data Hdata. rewrite Hdata in Hrun.
    destruct (create_report_run S (analyst system) data topic s2)
      as (r & s3 & Hrep & Hext3).
    exists r, s3. split; [done|]. split; [by rewrite Hrun|].
    unfold extends in Hext3. by rewrite Hext3, Hext, <- app_assoc.
Qed.

Lemma pipeline_requests (log : list Call) p cfg r :
  searches (CONSTRUCTED ++ log ++ [CallGenerate p cfg r]) = searches log /\
  invokes (CONSTRUCTED ++ log ++ [CallGenerate p cfg r]) = invokes log /\
  generates (CONSTRUCTED ++ log ++ [CallGenerate p cfg r]) = (generates log ++ [(p, r)])%list.
Proof.
  rewrite !searches_app, !invokes_app, !generates_app. simpl.
  by rewrite !app_nil_r.
Qed.

(** A run of [run_full_research] has one of three shapes: the
    construction raised, and the failure document is returned after the
    calls of the construction (or the exception goes on, when it is no
    [Exception]); or the four clients were built, the research loop ran,
    and one request went to the report model; or the four clients were
    built and the research loop was left by an exception that no handler
    is for. *)
Lemma pipeline_shape topic w res s' :
  run (run_full_research S topic) w = (res, s') ->
  (exists e,
     res = (if is_Exception e then Ok (pipeline_failed e) else Raise e) /\
     failed_construction (calls s') e /\
     fst (run (ResearchSystem_init S) w) = Raise e)
  \/ (exists log out r today,
        loop_run topic (sub_queries topic) [] log out /\
        escapes out = false /\
        calls s' =
          (CONSTRUCTED ++ log ++
           [CallGenerate (report_prompt (research_text out) topic today) gen_config r])%list /\
        res = outcome report_text r)
  \/ (exists log e,
        loop_run topic (sub_queries topic) [] log (Raise e) /\
        is_Exception e = false /\
        calls s' = (CONSTRUCTED ++ log)%list /\
        res = Raise e).
Proof.
  intros Hrun.
  destruct (run (ResearchSystem_init S) w) as [[system|e] s1] eqn:Hinit.
  - right.
    destruct (pipeline_log topic w system s1 Hinit)
      as (log & out & s2 & _ & Hloop & _ & Hc2 & Hraise & Hreturn).
    destruct (outcome research_text out) as [data|e] eqn:Hout.
    + left. destruct (Hreturn data eq_refl) as (r & s3 & _ & Hfull & Hc3).
      rewrite Hrun in Hfull. simplify_eq.
      apply outcome_ok in Hout as [-> Hesc]. eauto 10.
    + right. rewrite (Hraise e eq_refl) in Hrun. simplify_eq.
      apply outcome_raise in Hout as [-> Hclass]. eauto 10.
  - left. exists e. unfold run in *.
    pose proof (run_full_research_run S topic (mkState w [])) as Hpipe.
    rewrite Hinit, Hrun in Hpipe. simplify_eq. split; [done|]. split; [|done].
    destruct (ResearchSystem_init_failed S _ _ _ Hinit) as (log & Hc & Hfail).
    simpl in Hc. by rewrite Hc.
Qed.

(** The pipeline raises only an exception that is no [Exception], and
    that the secrets store or the last provider call of the run raised. *)
Lemma pipeline_raise topic w e s' :
  run (run_full_research S topic) w = (Raise e, s') ->
  is_Exception e = false /\
  ((calls s' = [] /\ st_secrets S = Raise e)
   \/ exists c, last (calls s') = Some c /\ call_raised c = Some e).
Proof.
  intros Hrun.
  destruct (run (ResearchSystem_init S) w) as [[system|e0] s1] eqn:Hinit.
  - destruct (pipeline_log topic w system s1 Hinit)
      as (log & out & s2 & _ & Hloop & _ & Hc2 & Hraise & Hreturn).
    destruct (outcome research_text out) as [data|e1] eqn:Hout.
    + destruct (Hreturn data eq_refl) as (r & s3 & _ & Hfull & Hc3).
      rewrite Hrun in Hfull. injection Hfull as Hr <-.
      symmetry in Hr. apply outcome_raise in Hr as [-> Hclass].
      split; [done|]. right. eexists. rewrite Hc3, !app_assoc, last_snoc. done.
    + rewrite (Hraise e1 eq_refl) in Hrun. simplify_eq.
      apply outcome_raise in Hout as [-> Hclass]. split; [done|]. right.
      destruct (loop_run_last _ _ _ _ _ Hloop e eq_refl) as (c & Hlast & Hc & _).
      exists c. split; [|done]. rewrite Hc2.
      destruct log as [|c0 log]; [done|]. by rewrite last_app, Hlast.
  - unfold run in *.
    pose proof (run_full_research_run S topic (mkState w [])) as Hpipe.
    rewrite Hinit, Hrun in Hpipe.
    destruct (is_Exception e0) eqn:Hclass; [done|]. simplify_eq.
    split; [done|].
    destruct (ResearchSystem_init_raise S _ _ _ Hinit) as (log & Hc & Hcase).
    simpl in Hc. rewrite Hc.
    destruct Hcase as [(-> & Hstore)|[(_ & -> & _)|[(_ & -> & _)|(n & what & Hn & ->)]]];
      try done.
    + by left.
    + right. eexists. by rewrite last_snoc.
Qed.

(** A provider call that raises outside [Exception] is the last call of
    the run, and the pipeline raises its exception. *)
Lemma pipeline_escapes topic w res s' c :
  run (run_full_research S topic) w = (res, s') ->
  c ∈ calls s' -> call_escapes c = true ->
  exists e, call_raised c = Some e /\ res = Raise e /\ last (calls s') = Some c.
Proof.
  intros Hrun Hin Hc.
  assert (forall c0, c0 ∈ CONSTRUCTED -> call_escapes c0 = false) as Hbuilt.
  { intros c0 H0. unfold CONSTRUCTED in H0.
    repeat (apply elem_of_cons in H0 as [->|H0]; [done|]). by apply elem_of_nil in H0. }
  destruct (pipeline_shape topic w res s' Hrun)
    as [(e0 & -> & Hfail & _)|[(log & out & r & today & Hloop & Hesc & Hlog & ->)
                               |(log & e0 & Hloop & Hclass & Hlog & ->)]].
  - destruct Hfail as [e0| | |n what e0 Hn].
    + by apply elem_of_nil in Hin.
    + by apply elem_of_nil in Hin.
    + apply (elem_of_sublist _ CONSTRUCTED) in Hin; [|apply sublist_take].
      by rewrite (Hbuilt c Hin) in Hc.
    + apply elem_of_app in Hin as [Hin|Hin].
      * apply (elem_of_sublist _ CONSTRUCTED) in Hin; [|apply sublist_take].
        by rewrite (Hbuilt c Hin) in Hc.
      * apply list_elem_of_singleton in Hin as ->.
        unfold call_escapes in Hc. simpl in Hc. apply negb_true_iff in Hc.
        exists e0. rewrite Hc, last_snoc. done.
  - rewrite Hlog in *. apply elem_of_app in Hin as [Hin|Hin].
    { by rewrite (Hbuilt c Hin) in Hc. }
    apply elem_of_app in Hin as [Hin|Hin].
    + destruct (loop_run_escapes _ _ _ _ _ Hloop c Hin Hc) as (e & _ & Hclass & -> & _).
      simpl in Hesc. by rewrite Hclass in Hesc.
    + apply list_elem_of_singleton in Hin as ->.
      destruct r as [resp|e]; [done|].
      unfold call_escapes in Hc. simpl in Hc. apply negb_true_iff in Hc.
      exists e. split; [done|]. split; [simpl; by rewrite Hc|].
      by rewrite app_assoc, last_snoc.
  - rewrite Hlog in *. apply elem_of_app in Hin as [Hin|Hin].
    { by rewrite (Hbuilt c Hin) in Hc. }
    destruct (loop_run_escapes _ _ _ _ _ Hloop c Hin Hc) as (e & He & _ & [= ->] & Hlast).
    exists e. split; [done|]. split; [done|].
    destruct log as [|c0 log]; [done|]. by rewrite last_app, Hlast.
Qed.

(** C2, as the code has it.  [run_full_research] returns a text for
    every error of class [Exception]: what its [try] block returns is
    returned as it is, and an [Exception] leaving the block (only the
    construction of the system lets one out) becomes the document that
    starts with the heading "# Research Failed" and carries the error's
    message.  An exception outside that class is not handled: it leaves
    [run_full_research] as it left the block, and a provider call or a
    secrets store that raises one makes [run_full_research] raise it.  So
    a run returns a text exactly when neither the secrets store nor a
    provider call raised outside [Exception]. *)
Theorem run_full_research_handles_Exception topic w :
  exists res s',
    run (run_full_research S topic) w = (res, s') /\
    match fst (run (run_full_research_body S topic) w) with
    | Ok report => res = Ok report
    | Raise e =>
        if is_Exception e then
          exists txt,
            res = Ok txt /\
            txt = "# Research Failed" +:+ nl +:+ nl +:+
                  "An unexpected error occurred: " +:+ exc_str e +:+ nl /\
            String.prefix "# Research Failed" txt = true /\
            fst (run (ResearchSystem_init S) w) = Raise e
        else res = Raise e
    end /\
    (forall e, res = Raise e ->
       is_Exception e = false /\
       ((calls s' = [] /\ st_secrets S = Raise e)
        \/ exists c, last (calls s') = Some c /\ call_raised c = Some e)) /\
    (escapes (st_secrets S) = false ->
     Forall (fun c => call_escapes c = false) (calls s') ->
     exists txt, res = Ok txt) /\
    (forall c, c ∈ calls s' -> call_escapes c = true ->
       exists e, call_raised c = Some e /\ res = Raise e /\ last (calls s') = Some c) /\
    (forall e, st_secrets S = Raise e -> is_Exception e = false ->
       res = Raise e /\ calls s' = []).
Proof.
  destruct (run (run_full_research S topic) w) as [res s'] eqn:Hrun.
  exists res, s'. split; [done|]. split; [|split; [|split; [|split]]]; cycle 3.
  { intros c. by apply (pipeline_escapes topic w res s' c). }
  { intros e Hstore Hclass. unfold run in Hrun.
    pose proof (run_full_research_run S topic (mkState w [])) as Hpipe.
    unfold ResearchSystem_init, ResearchAgent_init, bind, of_result, secret in Hpipe.
    rewrite Hstore, Hclass, Hrun in Hpipe. by simplify_eq. }
  - unfold run in *. unfold run_full_research, try_except, ret in Hrun.
    destruct (run_full_research_body S topic (mkState w [])) as [[report|e] s1] eqn:Hbody;
      simpl; [by simplify_eq|].
    destruct (is_Exception e) eqn:Hclass; [|by simplify_eq].
    exists (pipeline_failed e). split; [by simplify_eq|]. split; [done|].
    split; [apply string_prefix_app|].
    unfold run_full_research_body, bind in Hbody.
    destruct (ResearchSystem_init S (mkState w [])) as [[system|e0] s0]; [|by simplify_eq].
    exfalso.
    destruct (research_topic_run S (researcher system) topic s0) as (log & out & s2 & Hres & _).
    rewrite Hres in Hbody.
    destruct (outcome research_text out) as [data|e1] eqn:Hout.
    + destruct (create_report_run S (analyst system) data topic s2) as (r & s3 & Hrep & _).
      rewrite Hrep in Hbody.
      destruct (outcome report_text r) as [report|e2] eqn:Hreport; [done|].
      apply outcome_raise in Hreport as [_ Hno]. simplify_eq. congruence.
    + apply outcome_raise in Hout as [_ Hno]. simplify_eq. congruence.
  - intros e ->. by apply (pipeline_raise topic w e s').
  - intros Hstore Hcalls. destruct res as [txt|e]; [eauto|]. exfalso.
    destruct (pipeline_raise topic w e s' Hrun) as [Hclass [[_ He]|(c & Hlast & Hc)]].
    + rewrite He in Hstore. simpl in Hstore. by rewrite Hclass in Hstore.
    + by apply (last_call_escapes (calls s') c e).
Qed.

End Boundary.



(** C2, as stated, fails: the search of the second sub-query is
    interrupted from the keyboard; KeyboardInterrupt is no [Exception], no
    handler takes it, and [run_full_research] raises it instead of
    returning a text. *)
Lemma keyboard_interrupt_leaves_pipeline :
  is_Exception KeyboardInterrupt = false /\
  map snd (searches (calls (snd (pipeline_with svc_interrupted)))) =
    [one_result; Raise KeyboardInterrupt] /\
  fst (pipeline_with svc_interrupted) = Raise KeyboardInterrupt /\
  ~ (exists txt, fst (pipeline_with svc_interrupted) = Ok txt).
Proof.
  split; [by vm_compute|]. split; [by vm_compute|]. split; [by vm_compute|].
  intros (txt & Htxt). vm_compute in Htxt. discriminate Htxt.
Qed.

(** A ChatGroq constructor that raises an [Exception]: the failure
    document. *)
Lemma run_full_research_handles_Exception_witness :
  exists res s',
    pipeline_with svc_groq_down = (res, s') /\
    res = Ok ("# Research Failed" +:+ nl +:+ nl +:+
              "An unexpected error occurred: fail" +:+ nl) /\
    (forall e, res = Raise e -> is_Exception e = false).
Proof.
  destruct (run_full_research_handles_Exception svc_groq_down TOPIC fresh)
    as (res & s' & Hrun & Hbody & Hraise & _).
  exists res, s'. split; [exact Hrun|]. split.
  - vm_compute in Hbody. destruct Hbody as (txt & -> & -> & _). reflexivity.
  - intros e He. exact (proj1 (Hraise e He)).
Defined.

(** ** The research stage *)

Lemma filter_all {A} (f : A -> bool) (l : list A) :
  Forall (fun x => f x = true) l -> List.filter f l = l.
Proof.
  induction 1 as [|x l Hx _ IH]; [done|].
  simpl. by rewrite Hx, IH.
Qed.

(** When no search finds anything, the loop summarizes nothing. *)
Lemma loop_run_all_empty topic queries acc log out :
  loop_run topic queries acc log out ->
  Forall (fun qr => search_empty qr.2 = true) (searches log) ->
  invokes log = [] /\ out = Ok acc /\ map fst (searches log) = queries.
Proof.
  induction 1 as [acc|q rest acc r log out Hempty Hloop IH
                  |q rest acc r msg log out Hempty Hesc Hloop IH
                  |q rest acc r e Hempty Hesc
                  |q rest acc e Hclass]; intros Hall.
  - done.
  - rewrite searches_search in Hall. apply Forall_cons in Hall as [_ Hall].
    destruct (IH Hall) as (Hi & Ho & Hq).
    rewrite invokes_search, searches_search. simpl. by rewrite Hq.
  - rewrite searches_search in Hall. apply Forall_cons in Hall as [Hr _].
    simpl in Hr. congruence.
  - rewrite searches_search in Hall. apply Forall_cons in Hall as [Hr _].
    simpl in Hr. congruence.
  - rewrite searches_search in Hall. apply Forall_cons in Hall as [Hr _].
    simpl in Hr. congruence.
Qed.

(** When every search gives a text to summarize and no summarizer call
    raises, each of the three sub-queries gets one summary. *)
Lemma three_summaries topic log out :
  loop_run topic (sub_queries topic) [] log out ->
  Forall (fun mr => is_ok mr.2 = true) (invokes log) ->
  Forall (fun qr => escapes qr.2 = false) (searches log) ->
  Forall (fun qr => search_empty qr.2 = false) (searches log) ->
  exists q1 q2 q3 r1 r2 r3 m1 m2 m3,
    sub_queries topic = [q1; q2; q3] /\
    searches log = [(q1, r1); (q2, r2); (q3, r3)] /\
    invokes log =
      [(summary_messages topic q1 (search_text r1), Ok m1);
       (summary_messages topic q2 (search_text r2), Ok m2);
       (summary_messages topic q3 (search_text r3), Ok m3)] /\
    summaries_of log = [content m1; content m2; content m3] /\
    out = Ok [content m1; content m2; content m3].
Proof.
  intros Hloop Hok Hcaught Hfull.
  destruct (loop_run_ok _ _ _ _ _ Hloop Hok Hcaught) as (Hq & Hout & Hm).
  rewrite filter_all in Hm
    by (eapply Forall_impl; [exact Hfull|]; intros qr Hqr; simpl in Hqr; by rewrite Hqr).
  unfold summaries_of in *. unfold sub_queries in *.
  destruct (searches log) as [|[q1 r1] [|[q2 r2] [|[q3 r3] [|]]]]; try discriminate Hq.
  injection Hq as <- <- <-.
  destruct (invokes log) as [|[p1 o1] [|[p2 o2] [|[p3 o3] [|]]]]; try discriminate Hm.
  injection Hm as -> -> ->.
  apply Forall_cons in Hok as [H1 Hok]. apply Forall_cons in Hok as [H2 Hok].
  apply Forall_cons in Hok as [H3 _].
  destruct o1 as [m1|]; [|discriminate H1].
  destruct o2 as [m2|]; [|discriminate H2].
  destruct o3 as [m3|]; [|discriminate H3].
  eexists _, _, _, r1, r2, r3, m1, m2, m3. by rewrite Hout.
Qed.

Section ResearchStage.

Context {World ChatGroq TavilyClient GenerativeModel : Type}.
Variable S : @Services World ChatGroq TavilyClient GenerativeModel.
Variable self : @ResearchAgent ChatGroq TavilyClient.

(** The log of a run of [research_topic] from an empty log is that of its
    loop, and the run ends as the loop's outcome has it. *)
Lemma research_topic_log topic w res s' :
  run (research_topic S self topic) w = (res, s') ->
  exists out,
    res = outcome research_text out /\
    loop_run topic (sub_queries topic) [] (calls s') out.
Proof.
  intros Hrun. unfold run in Hrun.
  destruct (research_topic_run S self topic (mkState w []))
    as (log & out & s'' & Hres & Hext & Hloop).
  rewrite Hrun in Hres. injection Hres as -> <-.
  unfold extends in Hext. simpl in Hext. rewrite Hext. eauto.
Qed.

(** C1, as the code has it.  When the search raises for exactly one
    sub-query, returns results for the other two, and no summarizer call
    raises, the text returned holds three summaries, joined by the
    separator in sub-query order: the failed sub-query is summarized too,
    from the text "Search failed: ..." that takes the place of its search
    results.  The run is not aborted. *)
Theorem research_topic_search_failure topic w res s' :
  run (research_topic S self topic) w = (res, s') ->
  Forall (fun qr => search_raised qr.2 || search_nonempty qr.2 = true)
         (searches (calls s')) ->
  length (List.filter (fun qr => search_raised qr.2) (searches (calls s'))) = 1 ->
  Forall (fun mr => is_ok mr.2 = true) (invokes (calls s')) ->
  exists a b c,
    summaries_of (calls s') = [a; b; c] /\
    res = Ok (a +:+ SEPARATOR +:+ b +:+ SEPARATOR +:+ c) /\
    map fst (searches (calls s')) = sub_queries topic /\
    map fst (invokes (calls s')) =
      map (fun qr => summary_messages topic qr.1 (search_text qr.2)) (searches (calls s')) /\
    exists q e m,
      (q, Raise e) ∈ searches (calls s') /\
      (summary_messages topic q (search_failed e), Ok m) ∈ invokes (calls s').
Proof.
  intros Hrun Hsearch Hone Hok.
  destruct (research_topic_log _ _ _ _ Hrun) as (out & -> & Hloop).
  assert (Forall (fun qr => search_empty qr.2 = false) (searches (calls s'))) as Hfull.
  { eapply Forall_impl; [exact Hsearch|]. intros [q r] Hr. simpl in *.
    apply orb_true_iff in Hr as [Hr|Hr];
      [by apply search_raised_not_empty|by apply search_nonempty_not_empty]. }
  assert (Forall (fun qr => escapes qr.2 = false) (searches (calls s'))) as Hcaught.
  { eapply Forall_impl; [exact Hsearch|]. intros [q r] Hr. simpl in *.
    apply orb_true_iff in Hr as [Hr|Hr]; [by apply search_raised_caught|by destruct r]. }
  destruct (three_summaries _ _ _ Hloop Hok Hcaught Hfull)
    as (q1 & q2 & q3 & r1 & r2 & r3 & m1 & m2 & m3 & Hq & Hs & Hi & Hsum & ->).
  exists (content m1), (content m2), (content m3).
  rewrite Hs, Hi, Hq in *. repeat split; try done.
  destruct r1 as [x1|e1]; [|exists q1, e1, m1; split; apply list_elem_of_here].
  destruct r2 as [x2|e2];
    [|exists q2, e2, m2; split; apply list_elem_of_further, list_elem_of_here].
  destruct r3 as [x3|e3]; [simpl in Hone; discriminate Hone|].
  exists q3, e3, m3.
  split; apply list_elem_of_further, list_elem_of_further, list_elem_of_here.
Qed.

(** C3, as the code has it.  A summarizer call that raises is the last
    call of the research run: the loop does not recover, no later
    sub-query is searched or summarized, and no partial result is
    returned.  The exception is caught by the handler of [research_topic]
    itself, which returns the text "Research failed: ..." as a value; an
    exception that is no [Exception] is not for that handler and leaves
    [research_topic]. *)
Theorem summarizer_failure_aborts_research topic w res s' m e :
  run (research_topic S self topic) w = (res, s') ->
  (m, Raise e) ∈ invokes (calls s') ->
  res = (if is_Exception e then Ok ("Research failed: " +:+ exc_str e) else Raise e) /\
  last (calls s') = Some (CallInvoke m (Raise e)).
Proof.
  intros Hrun Hin.
  destruct (research_topic_log _ _ _ _ Hrun) as (out & -> & Hloop).
  destruct (loop_run_raise _ _ _ _ _ Hloop m e Hin) as [-> Hlast].
  done.
Qed.

(** C7.  Topic "AI in Healthcare", every search returning the one result
    with title T, content C and url U, every summarizer call returning
    "sum": the research text is three times "sum", joined by the
    separator. *)
Theorem research_topic_ai_in_healthcare w res s' :
  run (research_topic S self "AI in Healthcare") w = (res, s') ->
  Forall (fun qr => qr.2 = Ok (mkSearchResponse (Some [item_TCU]))) (searches (calls s')) ->
  Forall (fun mr => mr.2 = Ok (mkAIMessage "sum")) (invokes (calls s')) ->
  res = Ok ("sum" +:+ nl +:+ nl +:+ "---" +:+ nl +:+ nl +:+
            "sum" +:+ nl +:+ nl +:+ "---" +:+ nl +:+ nl +:+ "sum") /\
  map fst (searches (calls s')) =
    ["AI in Healthcare recent developments";
     "AI in Healthcare key players and companies";
     "AI in Healthcare major challenges and opportunities"].
Proof.
  intros Hrun Hsearch Hsum.
  destruct (research_topic_log _ _ _ _ Hrun) as (out & -> & Hloop).
  assert (Forall (fun mr => is_ok mr.2 = true) (invokes (calls s'))) as Hok.
  { eapply Forall_impl; [exact Hsum|]. by intros [p r] ->. }
  assert (Forall (fun qr => search_empty qr.2 = false) (searches (calls s'))) as Hfull.
  { eapply Forall_impl; [exact Hsearch|]. by intros [q r] ->. }
  assert (Forall (fun qr => escapes qr.2 = false) (searches (calls s'))) as Hcaught.
  { eapply Forall_impl; [exact Hsearch|]. by intros [q r] ->. }
  destruct (three_summaries _ _ _ Hloop Hok Hcaught Hfull)
    as (q1 & q2 & q3 & r1 & r2 & r3 & m1 & m2 & m3 & Hq & Hs & Hi & _ & ->).
  rewrite Hi in Hsum. rewrite Hs.
  apply Forall_cons in Hsum as [[= ->] Hsum].
  apply Forall_cons in Hsum as [[= ->] Hsum].
  apply Forall_cons in Hsum as [[= ->] _].
  injection Hq as <- <- <-. done.
Qed.

End ResearchStage.

(** ** The pipeline *)

Section PipelineStage.

Context {World ChatGroq TavilyClient GenerativeModel : Type}.
Variable S : @Services World ChatGroq TavilyClient GenerativeModel.

(** C5.  When every search of the run returns zero results, the research
    stage returns the literal "Could not find sufficient information on
    the topic.", the summarizer is never called, and the report model is
    called once, with that literal as its research data; the pipeline
    ends as [create_report] does on that request. *)
Theorem no_results_for_any_sub_query topic w system s1 res s3 :
  run (ResearchSystem_init S) w = (Ok system, s1) ->
  run (run_full_research S topic) w = (res, s3) ->
  Forall (fun qr => search_empty qr.2 = true) (searches (calls s3)) ->
  exists s2 r,
    research_topic S (researcher system) topic s1 =
      (Ok "Could not find sufficient information on the topic.", s2) /\
    map fst (searches (calls s3)) = sub_queries topic /\
    Forall (fun qr => search_text qr.2 = "No results.") (searches (calls s3)) /\
    invokes (calls s3) = [] /\
    generates (calls s3) =
      [(report_prompt "Could not find sufficient information on the topic." topic
          (now_strftime S "%Y-%m-%d" (world s2)), r)] /\
    res = outcome report_text r.
Proof.
  intros Hinit Hrun Hall.
  destruct (pipeline_log S topic w system s1 Hinit)
    as (log & out & s2 & _ & Hloop & Hres & Hc2 & Hraise & Hreturn).
  assert (out = Ok []) as ->.
  { destruct (outcome research_text out) as [data|e] eqn:Hout.
    - destruct (Hreturn data eq_refl) as (r & s3' & _ & Hfull & Hc3).
      rewrite Hrun in Hfull. injection Hfull as -> <-.
      destruct (pipeline_requests log
                  (report_prompt data topic (now_strftime S "%Y-%m-%d" (world s2)))
                  gen_config r) as (Hs & _).
      rewrite Hc3, Hs in Hall.
      by destruct (loop_run_all_empty _ _ _ _ _ Hloop Hall) as (_ & -> & _).
    - rewrite (Hraise e eq_refl) in Hrun. injection Hrun as <- <-.
      rewrite Hc2, searches_app in Hall. simpl in Hall.
      by destruct (loop_run_all_empty _ _ _ _ _ Hloop Hall) as (_ & -> & _). }
  destruct (Hreturn INSUFFICIENT eq_refl) as (r & s3' & _ & Hfull & Hc3).
  rewrite Hrun in Hfull. injection Hfull as -> <-.
  destruct (pipeline_requests log
              (report_prompt INSUFFICIENT topic (now_strftime S "%Y-%m-%d" (world s2)))
              gen_config r) as (Hs & Hi & Hg).
  rewrite Hc3 in *. rewrite Hs, Hi, Hg in *.
  destruct (loop_run_all_empty _ _ _ _ _ Hloop Hall) as (Hnone & _ & Hq).
  exists s2, r. rewrite (loop_run_generates _ _ _ _ _ Hloop).
  repeat split; try done.
  eapply Forall_impl; [exact Hall|]. intros [q o] Ho. simpl in *.
  apply String.eqb_eq. by rewrite search_text_no_results.
Qed.


(** C9.  Once the system is constructed, whatever text [research_topic]
    returns is passed to [create_report], and the pipeline ends as that
    call does: the report model is called exactly once, with a prompt
    built from that text.  This includes the text "Research failed: ..."
    of a failed summarizer call and the text of a research without
    results.  The one run that does not reach [create_report] is that in
    which [research_topic] returns nothing, an exception that is no
    [Exception] having left it. *)
Theorem research_text_always_reported topic w system s1 :
  run (ResearchSystem_init S) w = (Ok system, s1) ->
  match research_topic S (researcher system) topic s1 with
  | (Ok data, s2) =>
      exists r s3,
        run (run_full_research S topic) w =
          create_report S (analyst system) data topic s2 /\
        run (run_full_research S topic) w = (outcome report_text r, s3) /\
        generates (calls s3) =
          [(report_prompt data topic (now_strftime S "%Y-%m-%d" (world s2)), r)] /\
        (forall m e, (m, Raise e) ∈ invokes (calls s3) ->
                     data = "Research failed: " +:+ exc_str e) /\
        (Forall (fun qr => search_empty qr.2 = true) (searches (calls s3)) ->
         data = "Could not find sufficient information on the topic.")
  | (Raise e, s2) =>
      is_Exception e = false /\
      run (run_full_research S topic) w = (Raise e, s2) /\
      generates (calls s2) = []
  end.
Proof.
  intros Hinit.
  destruct (pipeline_log S topic w system s1 Hinit)
    as (log & out & s2 & _ & Hloop & Hres & Hc2 & Hraise & Hreturn).
  rewrite Hres.
  destruct (outcome research_text out) as [data|e] eqn:Hout.
  - destruct (Hreturn data eq_refl) as (r & s3 & Hrep & Hfull & Hc3).
    destruct (pipeline_requests log
                (report_prompt data topic (now_strftime S "%Y-%m-%d" (world s2)))
                gen_config r) as (Hs & Hi & Hg).
    apply outcome_ok in Hout as [-> Hesc].
    exists r, s3.
    rewrite Hc3, Hs, Hi, Hg, (loop_run_generates _ _ _ _ _ Hloop).
    repeat split; try done.
    + by rewrite Hfull, Hrep.
    + intros m e Hin. by destruct (loop_run_raise _ _ _ _ _ Hloop m e Hin) as [-> _].
    + intros Hall. by destruct (loop_run_all_empty _ _ _ _ _ Hloop Hall) as (_ & -> & _).
  - split; [by apply outcome_raise in Hout as [_ ?]|]. split; [by apply Hraise|].
    rewrite Hc2, generates_app. by rewrite (loop_run_generates _ _ _ _ _ Hloop).
Qed.

End PipelineStage.

(** ** The theorems on the test doubles *)

(** C1, as stated, fails: the search raises for the second sub-query
    only, the other two return a result, every summarizer call succeeds,
    and the research text holds three summaries, not two. *)
Lemma two_summaries_refuted :
  map snd (searches (calls (snd (research_with svc_search_fails)))) =
    [one_result; Raise boom; one_result] /\
  map snd (invokes (calls (snd (research_with svc_search_fails)))) = [sum_reply; sum_reply; sum_reply] /\
  summaries_of (calls (snd (research_with svc_search_fails))) = ["sum"; "sum"; "sum"] /\
  fst (research_with svc_search_fails) =
    Ok ("sum" +:+ SEPARATOR +:+ "sum" +:+ SEPARATOR +:+ "sum") /\
  ~ (exists a b,
       summaries_of (calls (snd (research_with svc_search_fails))) = [a; b] /\
       fst (research_with svc_search_fails) = Ok (a +:+ SEPARATOR +:+ b)).
Proof.
  split; [by vm_compute|]. split; [by vm_compute|].
  split; [by vm_compute|]. split; [by vm_compute|].
  intros (a & b & Hsum & _). vm_compute in Hsum. discriminate Hsum.
Qed.

Lemma research_topic_search_failure_witness :
  exists a b c,
    summaries_of (calls (snd (research_with svc_search_fails))) = [a; b; c] /\
    fst (research_with svc_search_fails) =
      Ok (a +:+ SEPARATOR +:+ b +:+ SEPARATOR +:+ c) /\
    map fst (searches (calls (snd (research_with svc_search_fails)))) = sub_queries TOPIC /\
    map fst (invokes (calls (snd (research_with svc_search_fails)))) =
      map (fun qr => summary_messages TOPIC qr.1 (search_text qr.2))
          (searches (calls (snd (research_with svc_search_fails)))) /\
    exists q e m,
      (q, Raise e) ∈ searches (calls (snd (research_with svc_search_fails))) /\
      (summary_messages TOPIC q (search_failed e), Ok m)
        ∈ invokes (calls (snd (research_with svc_search_fails))).
Proof.
  apply (research_topic_search_failure svc_search_fails test_agent TOPIC fresh
           (fst (research_with svc_search_fails)) (snd (research_with svc_search_fails))).
  - vm_compute. reflexivity.
  - vm_compute. repeat constructor.
  - vm_compute. reflexivity.
  - vm_compute. repeat constructor.
Defined.

(** C3, as stated, fails: the summarizer raises for the second sub-query,
    [research_topic] does not let the exception through but returns the
    text "Research failed: fail", and the pipeline returns the report
    model's text, not the document of its own handler. *)
Lemma summarizer_failure_not_caught_by_pipeline :
  map snd (invokes (calls (snd (research_with svc_summarizer_fails)))) = [sum_reply; Raise boom] /\
  fst (research_with svc_summarizer_fails) = Ok "Research failed: fail" /\
  fst (research_with svc_summarizer_fails) <> Raise boom /\
  fst (pipeline_with svc_summarizer_fails) = Ok "## Report" /\
  fst (pipeline_with svc_summarizer_fails) <> Ok (pipeline_failed boom).
Proof.
  split; [by vm_compute|]. split; [by vm_compute|]. split; [by vm_compute|].
  split; by vm_compute.
Qed.

Lemma summarizer_failure_aborts_research_witness :
  fst (research_with svc_summarizer_fails) = Ok ("Research failed: " +:+ exc_str boom) /\
  last (calls (snd (research_with svc_summarizer_fails))) =
    Some (CallInvoke
            (summary_messages TOPIC (TOPIC +:+ " key players and companies")
               (search_text one_result))
            (Raise boom)).
Proof.
  apply (summarizer_failure_aborts_research svc_summarizer_fails test_agent TOPIC fresh
           (fst (research_with svc_summarizer_fails)) (snd (research_with svc_summarizer_fails))
           (summary_messages TOPIC (TOPIC +:+ " key players and companies")
              (search_text one_result))
           boom).
  - vm_compute. reflexivity.
  - vm_compute. apply list_elem_of_further, list_elem_of_here.
Defined.

Lemma research_topic_ai_in_healthcare_witness :
  fst (research_with svc_ok) =
    Ok ("sum" +:+ nl +:+ nl +:+ "---" +:+ nl +:+ nl +:+
        "sum" +:+ nl +:+ nl +:+ "---" +:+ nl +:+ nl +:+ "sum") /\
  map fst (searches (calls (snd (research_with svc_ok)))) =
    ["AI in Healthcare recent developments";
     "AI in Healthcare key players and companies";
     "AI in Healthcare major challenges and opportunities"].
Proof.
  apply (research_topic_ai_in_healthcare svc_ok test_agent fresh
           (fst (research_with svc_ok)) (snd (research_with svc_ok))).
  - vm_compute. reflexivity.
  - vm_compute. repeat constructor.
  - vm_compute. repeat constructor.
Defined.

Lemma no_results_for_any_sub_query_witness :
  exists s2 r,
    research_topic svc_no_results (researcher test_system) TOPIC
                   (snd (constructed_with svc_no_results)) =
      (Ok "Could not find sufficient information on the topic.", s2) /\
    map fst (searches (calls (snd (pipeline_with svc_no_results)))) = sub_queries TOPIC /\
    Forall (fun qr => search_text qr.2 = "No results.")
           (searches (calls (snd (pipeline_with svc_no_results)))) /\
    invokes (calls (snd (pipeline_with svc_no_results))) = [] /\
    generates (calls (snd (pipeline_with svc_no_results))) =
      [(report_prompt "Could not find sufficient information on the topic." TOPIC
          (now_strftime svc_no_results "%Y-%m-%d" (world s2)), r)] /\
    fst (pipeline_with svc_no_results) = outcome report_text r.
Proof.
  apply (no_results_for_any_sub_query svc_no_results TOPIC fresh test_system
           (snd (constructed_with svc_no_results))
           (fst (pipeline_with svc_no_results)) (snd (pipeline_with svc_no_results))).
  - vm_compute. reflexivity.
  - vm_compute. reflexivity.
  - vm_compute. repeat constructor.
Defined.



Lemma research_text_always_reported_witness :
  match research_topic svc_summarizer_fails (researcher test_system) TOPIC
                       (snd (constructed_with svc_summarizer_fails)) with
  | (Ok data, s2) =>
      exists r s3,
        pipeline_with svc_summarizer_fails =
          create_report svc_summarizer_fails (analyst test_system) data TOPIC s2 /\
        pipeline_with svc_summarizer_fails = (outcome report_text r, s3) /\
        generates (calls s3) =
          [(report_prompt data TOPIC
              (now_strftime svc_summarizer_fails "%Y-%m-%d" (world s2)), r)] /\
        (forall m e, (m, Raise e) ∈ invokes (calls s3) ->
                     data = "Research failed: " +:+ exc_str e) /\
        (Forall (fun qr => search_empty qr.2 = true) (searches (calls s3)) ->
         data = "Could not find sufficient information on the topic.")
  | (Raise e, s2) =>
      is_Exception e = false /\
      pipeline_with svc_summarizer_fails = (Raise e, s2) /\
      generates (calls s2) = []
  end.
Proof.
  apply (research_text_always_reported svc_summarizer_fails TOPIC fresh test_system
           (snd (constructed_with svc_summarizer_fails))).
  vm_compute. reflexivity.
Defined.

(** ** Every run of the pipeline *)

(** Case analysis of a membership in a list that is written out. *)
Ltac members H :=
  repeat (apply elem_of_cons in H as [H|H];
          [try discriminate H; try (injection H as -> ->; done)|]);
  try (by apply elem_of_nil in H).

Lemma failed_construction_requests log e :
  failed_construction log e ->
  searches log = [] /\ invokes log = [] /\ generates log = [] /\
  (length (constructions log) <= 4)%nat /\
  search_parameters_fixed log /\
  (forall what e', (what, Raise e') ∈ constructions log ->
     e' = e /\ last log = Some (CallNew what (Raise e'))).
Proof.
  unfold search_parameters_fixed.
  destruct 1 as [e| | |n what e Hn].
  - do 4 (split; [done || (cbn; lia)|]). split; [constructor|].
    intros what e' Hin. by apply elem_of_nil in Hin.
  - do 4 (split; [done || (cbn; lia)|]). split; [constructor|].
    intros what e' Hin. by apply elem_of_nil in Hin.
  - do 4 (split; [done || (cbn; lia)|]). split; [by repeat constructor|].
    intros what e' Hin. cbn in Hin. members Hin.
  - destruct n as [|[|[|[|n]]]]; try lia; cbn;
      (do 4 (split; [done || (cbn; lia)|])); (split; [by repeat constructor|]);
      intros what' e' Hin; cbn in Hin; members Hin.
Qed.

(** ** Calls of the research loop *)

(** The loop searches the sub-queries in order, as far as it gets, always
    with the same parameters, and never summarizes more than it searched. *)
Lemma loop_run_budget topic queries acc log out :
  loop_run topic queries acc log out ->
  map fst (searches log) `prefix_of` queries /\
  (length (invokes log) <= length (searches log))%nat /\
  search_parameters_fixed log.
Proof.
  unfold search_parameters_fixed.
  induction 1 as [acc|q rest acc r log out Hempty Hloop (IHp & IHl & IHf)
                  |q rest acc r msg log out Hempty Hesc Hloop (IHp & IHl & IHf)
                  |q rest acc r e Hempty Hesc
                  |q rest acc e Hclass].
  - split; [done|]. split; [done|]. constructor.
  - rewrite searches_search, invokes_search. cbn [map fst length].
    split; [by apply prefix_cons|]. split; [lia|]. by constructor.
  - rewrite searches_search, searches_invoke, invokes_search, invokes_invoke.
    cbn [map fst length].
    split; [by apply prefix_cons|]. split; [lia|]. by repeat constructor.
  - split; [|split; [cbn; lia|by repeat constructor]].
    cbn. apply prefix_cons, prefix_nil.
  - split; [|split; [cbn; lia|by repeat constructor]].
    cbn. apply prefix_cons, prefix_nil.
Qed.

Section More.

Context {World ChatGroq TavilyClient GenerativeModel : Type}.
Variable S : @Services World ChatGroq TavilyClient GenerativeModel.

(** X1.  When the report model raises an [Exception], the pipeline
    still returns a text: "Report generation failed: " followed by the
    error's message; an exception of another class leaves the pipeline.
    Either way the failing request is the last call of the run, made
    after the four clients were built. *)
Theorem report_failure_is_reported topic w res s' prompt e :
  run (run_full_research S topic) w = (res, s') ->
  (prompt, Raise e) ∈ generates (calls s') ->
  res = (if is_Exception e then Ok ("Report generation failed: " +:+ exc_str e)
         else Raise e) /\
  last (calls s') = Some (CallGenerate prompt gen_config (Raise e)) /\
  take 4 (calls s') = CONSTRUCTED.
Proof.
  intros Hrun Hin.
  destruct (pipeline_shape S topic w res s' Hrun)
    as [(e0 & _ & Hfail & _)|[(log & out & r & today & Hloop & Hesc & Hc & ->)
                              |(log & e0 & Hloop & Hclass & Hc & ->)]].
  - destruct (failed_construction_requests _ _ Hfail) as (_ & _ & Hg & _).
    rewrite Hg in Hin. by apply elem_of_nil in Hin.
  - rewrite Hc in *. rewrite !generates_app, (loop_run_generates _ _ _ _ _ Hloop) in Hin.
    cbn in Hin. apply elem_of_cons in Hin as [[= -> <-]|Hin];
      [|by apply elem_of_nil in Hin].
    split; [done|]. split; [|done].
    by rewrite app_assoc, last_snoc.
  - rewrite Hc, generates_app, (loop_run_generates _ _ _ _ _ Hloop) in Hin.
    by apply elem_of_nil in Hin.
Qed.

(** X2.  When the construction of a client raises an [Exception], the
    pipeline returns the failure document with that error's message; an
    exception of another class leaves the pipeline.  Either way the failed
    construction is the last call of the run, and nothing is searched,
    summarized or reported. *)
Theorem construction_failure_is_reported topic w res s' what e :
  run (run_full_research S topic) w = (res, s') ->
  (what, Raise e) ∈ constructions (calls s') ->
  res = (if is_Exception e
         then Ok ("# Research Failed" +:+ nl +:+ nl +:+
                  "An unexpected error occurred: " +:+ exc_str e +:+ nl)
         else Raise e) /\
  last (calls s') = Some (CallNew what (Raise e)) /\
  searches (calls s') = [] /\ invokes (calls s') = [] /\ generates (calls s') = [].
Proof.
  intros Hrun Hin.
  destruct (pipeline_shape S topic w res s' Hrun)
    as [(e0 & -> & Hfail & _)|[(log & out & r & today & Hloop & Hesc & Hc & ->)
                               |(log & e0 & Hloop & Hclass & Hc & ->)]].
  - destruct (failed_construction_requests _ _ Hfail) as (Hs & Hi & Hg & _ & _ & Hlast).
    destruct (Hlast what e Hin) as [-> Hl]. done.
  - rewrite Hc in Hin.
    rewrite !constructions_app, (loop_run_constructions _ _ _ _ _ Hloop) in Hin.
    cbn in Hin. members Hin.
  - rewrite Hc in Hin.
    rewrite !constructions_app, (loop_run_constructions _ _ _ _ _ Hloop) in Hin.
    cbn in Hin. members Hin.
Qed.

(** X3.  With a secrets store that can be read and the Groq or the
    Tavily key absent or empty, the pipeline returns the failure document
    at once: no client is built, no provider is called and the providers'
    state is untouched. *)
Theorem missing_research_key_stops_pipeline topic w groq tav :
  secret S "GROQ_API_KEY" = Ok groq ->
  secret S "TAVILY_API_KEY" = Ok tav ->
  truthy groq && truthy tav = false ->
  run (run_full_research S topic) w =
    (Ok ("# Research Failed" +:+ nl +:+ nl +:+
         "An unexpected error occurred: Missing GROQ_API_KEY or TAVILY_API_KEY" +:+ nl),
     mkState w []).
Proof.
  intros Hgroq Htav Hkeys. unfold run.
  pose proof (run_full_research_run S topic (mkState w [])) as Hpipe.
  unfold ResearchSystem_init, ResearchAgent_init, bind, of_result in Hpipe.
  rewrite Hgroq, Htav, Hkeys in Hpipe. exact Hpipe.
Qed.

(** X4.  With a secrets store that can be read and the Gemini key
    absent or empty (the other two set), the two research clients are
    built before the key is looked at; the pipeline then returns the
    failure document for the missing key, and nothing is searched,
    summarized or reported. *)
Theorem missing_gemini_key_stops_pipeline topic w res s' groq tav gem :
  secret S "GROQ_API_KEY" = Ok groq ->
  secret S "TAVILY_API_KEY" = Ok tav ->
  truthy groq && truthy tav = true ->
  secret S "GEMINI_API_KEY" = Ok gem ->
  truthy gem = false ->
  run (run_full_research S topic) w = (res, s') ->
  searches (calls s') = [] /\ invokes (calls s') = [] /\ generates (calls s') = [] /\
  (Forall (fun c => call_ok c = true) (calls s') ->
   res = Ok ("# Research Failed" +:+ nl +:+ nl +:+
             "An unexpected error occurred: Missing GEMINI_API_KEY" +:+ nl) /\
   calls s' = [CallNew "ChatGroq" (Ok tt); CallNew "TavilyClient" (Ok tt)]).
Proof.
  intros Hgroq Htav Hkeys Hgem Hkey Hrun. unfold run in *.
  pose proof (run_full_research_run S topic (mkState w [])) as Hpipe.
  destruct (ResearchSystem_init S (mkState w [])) as [[system|e] s1] eqn:Hinit.
  - destruct (ResearchSystem_init_ok S _ _ _ Hinit)
      as (_ & groq' & tav' & gem' & _ & _ & _ & _ & Hgem' & Hm).
    rewrite Hgem in Hgem'. simplify_eq. congruence.
  - rewrite Hrun in Hpipe. injection Hpipe as -> ->.
    destruct (ResearchSystem_init_raise S _ _ _ Hinit) as (log & Hc & Hcase).
    simpl in Hc. rewrite Hc.
    destruct Hcase as [(_ & Hstore)|[(_ & _ & groq' & tav' & Hg' & Ht' & Hno)
                                     |[(-> & -> & _)|(n & what & Hn & ->)]]].
    + unfold secret in Hgroq. by rewrite Hstore in Hgroq.
    + rewrite Hgroq in Hg'. rewrite Htav in Ht'. simplify_eq. congruence.
    + done.
    + destruct (failed_construction_requests _ e (failed_client n what e Hn))
        as (Hs & Hi & Hg & _).
      do 3 (split; [done|]). intros Hok.
      apply Forall_app in Hok as [_ Hok]. apply Forall_cons in Hok as [Hbad _]. done.
Qed.

(** X5.  An empty entry in the secrets store stands before the
    environment: with the Groq or the Tavily entry of [st.secrets] empty,
    the pipeline fails for a missing key whatever the process environment
    holds. *)
Theorem empty_secret_masks_environment topic w store :
  st_secrets S = Ok store ->
  store !! "GROQ_API_KEY" = Some EmptyString \/
  store !! "TAVILY_API_KEY" = Some EmptyString ->
  run (run_full_research S topic) w =
    (Ok ("# Research Failed" +:+ nl +:+ nl +:+
         "An unexpected error occurred: Missing GROQ_API_KEY or TAVILY_API_KEY" +:+ nl),
     mkState w []).
Proof.
  intros Hstore Hempty. unfold run.
  pose proof (run_full_research_run S topic (mkState w [])) as Hpipe.
  unfold ResearchSystem_init, ResearchAgent_init, bind, of_result, secret in Hpipe.
  rewrite Hstore in Hpipe.
  destruct Hempty as [Hempty|Hempty]; rewrite Hempty in Hpipe.
  - exact Hpipe.
  - cbn [truthy String.eqb negb] in Hpipe. rewrite andb_false_r in Hpipe. exact Hpipe.
Qed.

(** X21.  With a secrets store that cannot be read, the pipeline fails
    at the first lookup, whatever the process environment holds: no
    client is built and no provider is called; the store's error becomes
    the failure document (it leaves the pipeline if it is no
    [Exception]). *)
Theorem unreadable_secrets_stop_pipeline topic w e :
  st_secrets S = Raise e ->
  run (run_full_research S topic) w =
    (if is_Exception e
     then Ok ("# Research Failed" +:+ nl +:+ nl +:+
              "An unexpected error occurred: " +:+ exc_str e +:+ nl)
     else Raise e,
     mkState w []).
Proof.
  intros Hstore. unfold run.
  pose proof (run_full_research_run S topic (mkState w [])) as Hpipe.
  unfold ResearchSystem_init, ResearchAgent_init, bind, of_result, secret in Hpipe.
  rewrite Hstore in Hpipe. exact Hpipe.
Qed.

End More.

Section MoreStages.

Context {World ChatGroq TavilyClient GenerativeModel : Type}.
Variable S : @Services World ChatGroq TavilyClient GenerativeModel.

(** X6.  [research_topic] returns a text unless a provider call raised
    an exception that is no [Exception]: then that call is the last of
    the run and its exception leaves [research_topic].  In every run it
    searches the sub-queries in their order, as far as it gets and at most
    the three of them, each time with depth "advanced" and three results
    at most; it never summarizes more than it searched, builds no client
    and never calls the report model. *)
Theorem research_topic_call_budget self topic w res s' :
  run (research_topic S self topic) w = (res, s') ->
  (forall e, res = Raise e ->
     is_Exception e = false /\
     exists c, last (calls s') = Some c /\ call_raised c = Some e) /\
  (Forall (fun c => call_escapes c = false) (calls s') -> exists txt, res = Ok txt) /\
  map fst (searches (calls s')) `prefix_of` sub_queries topic /\
  (length (invokes (calls s')) <= length (searches (calls s')) <= 3)%nat /\
  search_parameters_fixed (calls s') /\
  constructions (calls s') = [] /\
  generates (calls s') = [].
Proof.
  intros Hrun.
  destruct (research_topic_log S self _ _ _ _ Hrun) as (out & -> & Hloop).
  destruct (loop_run_budget _ _ _ _ _ Hloop) as (Hp & Hl & Hf).
  assert (forall e, outcome research_text out = Raise e ->
            is_Exception e = false /\
            exists c, last (calls s') = Some c /\ call_raised c = Some e) as Hraise.
  { intros e He. apply outcome_raise in He as [-> Hclass]. split; [done|].
    destruct (loop_run_last _ _ _ _ _ Hloop e eq_refl) as (c & Hlast & Hc & _). eauto. }
  split; [exact Hraise|]. split.
  { intros Hcalls. destruct (outcome research_text out) as [txt|e]; [eauto|]. exfalso.
    destruct (Hraise e eq_refl) as (Hclass & c & Hlast & Hc).
    by apply (last_call_escapes (calls s') c e). }
  split; [done|]. split.
  - split; [done|]. apply prefix_length in Hp. by rewrite length_map in Hp.
  - split; [done|]. split; [by eapply loop_run_constructions|by eapply loop_run_generates].
Qed.

(** X7.  When no summarizer call raises and no search raises outside
    the class [Exception], all three sub-queries are searched, a summary
    is asked for exactly the sub-queries whose search did not come back
    empty (in their order, each from its own search text), and the result
    is the summaries received joined by the separator, a single summary
    standing alone, or the no-information text when there is none.  A
    search that raises outside [Exception] is the last call of the run,
    and its exception leaves [research_topic]. *)
Theorem research_topic_skips_empty_searches self topic w res s' :
  run (research_topic S self topic) w = (res, s') ->
  Forall (fun mr => is_ok mr.2 = true) (invokes (calls s')) ->
  (Forall (fun qr => escapes qr.2 = false) (searches (calls s')) ->
   map fst (searches (calls s')) = sub_queries topic /\
   map fst (invokes (calls s')) =
     map (fun qr => summary_messages topic qr.1 (search_text qr.2))
         (List.filter (fun qr => negb (search_empty qr.2)) (searches (calls s'))) /\
   res = Ok (match summaries_of (calls s') with
             | [] => "Could not find sufficient information on the topic."
             | [only] => only
             | first :: others => first +:+ SEPARATOR +:+ join SEPARATOR others
             end)) /\
  (forall q e, (q, Raise e) ∈ searches (calls s') -> is_Exception e = false ->
     res = Raise e /\ last (calls s') = Some (CallSearch q "advanced" 3 (Raise e))).
Proof.
  intros Hrun Hok.
  destruct (research_topic_log S self _ _ _ _ Hrun) as (out & -> & Hloop).
  split.
  - intros Hcaught.
    destruct (loop_run_ok _ _ _ _ _ Hloop Hok Hcaught) as (Hq & -> & Hm).
    split; [done|]. split; [done|]. cbn [app research_text outcome].
    by destruct (summaries_of (calls s')) as [|a [|b l]].
  - intros q e Hin Hclass.
    destruct (loop_run_interrupted _ _ _ _ _ Hloop q e Hin Hclass) as [-> Hlast].
    split; [|done]. simpl. by rewrite Hclass.
Qed.

(** X8.  [_search_web] makes exactly one search request.  It returns
    the sentinel "No results." exactly when the provider answered without
    any result: an answer with results or a failure never produces it.  A
    failure of class [Exception] gives "Search failed: " followed by the
    error's message, any other exception leaves [_search_web], and an
    answer without the "results" key counts as empty. *)
Theorem _search_web_sentinel self q s res s' :
  _search_web S self q s = (res, s') ->
  exists r,
    calls s' = (calls s ++ [CallSearch q "advanced" 3 r])%list /\
    res = outcome search_text r /\
    (res = Ok "No results." <-> search_empty r = true) /\
    (forall e, r = Raise e ->
       res = if is_Exception e then Ok ("Search failed: " +:+ exc_str e) else Raise e) /\
    (r = Ok (mkSearchResponse None) -> res = Ok "No results.").
Proof.
  intros Hrun.
  destruct (_search_web_run S self q s) as (r & s'' & Hweb & Hext).
  rewrite Hrun in Hweb. simplify_eq. exists r.
  split; [exact Hext|]. split; [done|]. split; [|split].
  - split.
    + intros Hres. apply outcome_ok in Hres as [Hres _].
      rewrite <- search_text_no_results, <- Hres. done.
    + intros Hempty. rewrite outcome_caught by (by apply search_empty_caught).
      rewrite <- search_text_no_results in Hempty. apply String.eqb_eq in Hempty.
      by rewrite Hempty.
  - by intros e ->.
  - by intros ->.
Qed.

(** X9.  [create_report] makes exactly one request to the report model,
    with temperature 0.3 and at most 4096 output tokens.  The research
    data it was given stands in the prompt as it is, between the start and
    end markers, and the date is read before the request.  It returns the
    response's text, or "Report generation failed: " with the message of
    an [Exception]; any other exception leaves it. *)
Theorem create_report_one_request self data topic w res s' :
  run (create_report S self data topic) w = (res, s') ->
  exists prompt r,
    calls s' = [CallGenerate prompt (mkGenConfig (3 # 10) 4096) r] /\
    prompt = report_prompt data topic (now_strftime S "%Y-%m-%d" w) /\
    contains ("--- RESEARCH DATA START ---" +:+ nl +:+ data +:+ nl +:+
              "--- RESEARCH DATA END ---") prompt = true /\
    res = match r with
          | Ok resp => Ok (text resp)
          | Raise e =>
              if is_Exception e
              then Ok ("Report generation failed: " +:+ exc_str e)
              else Raise e
          end.
Proof.
  intros Hrun. unfold run in Hrun.
  destruct (create_report_run S self data topic (mkState w [])) as (r & s'' & Hrep & Hext).
  rewrite Hrun in Hrep. simplify_eq.
  unfold extends in Hext. simpl in Hext.
  eexists _, r. split; [exact Hext|]. split; [done|]. split; [|by destruct r].
  unfold report_prompt.
  do 19 apply contains_skip.
  apply contains_of_prefix.
  do 4 apply prefix_app_same.
  apply string_prefix_app.
Qed.

(** X10.  Every run of the pipeline stays within a fixed number of
    provider calls: at most four client constructions, three searches,
    three summarizer calls (never more than searches) and one report
    request; nothing is retried.  The run returns a text unless the
    secrets store or a provider call raised an exception that is no
    [Exception]: then that exception leaves the pipeline, the call that
    raised it being the last of the run. *)
Theorem pipeline_call_budget topic w res s' :
  run (run_full_research S topic) w = (res, s') ->
  (forall e, res = Raise e ->
     is_Exception e = false /\
     ((calls s' = [] /\ st_secrets S = Raise e)
      \/ exists c, last (calls s') = Some c /\ call_raised c = Some e)) /\
  (escapes (st_secrets S) = false ->
   Forall (fun c => call_escapes c = false) (calls s') ->
   exists txt, res = Ok txt) /\
  (length (constructions (calls s')) <= 4)%nat /\
  (length (invokes (calls s')) <= length (searches (calls s')) <= 3)%nat /\
  (length (generates (calls s')) <= 1)%nat /\
  search_parameters_fixed (calls s').
Proof.
  intros Hrun. split; [|split].
  { intros e ->. by apply (pipeline_raise S topic w e s'). }
  { intros Hstore Hcalls. destruct res as [txt|e]; [eauto|]. exfalso.
    destruct (pipeline_raise S topic w e s' Hrun) as [Hclass [[_ He]|(c & Hlast & Hc)]].
    - rewrite He in Hstore. simpl in Hstore. by rewrite Hclass in Hstore.
    - by apply (last_call_escapes (calls s') c e). }
  destruct (pipeline_shape S topic w res s' Hrun)
    as [(e0 & _ & Hfail & _)|[(log & out & r & today & Hloop & Hesc & Hc & ->)
                              |(log & e0 & Hloop & Hclass & Hc & ->)]].
  - destruct (failed_construction_requests _ _ Hfail) as (Hs & Hi & Hg & Hn & Hf & _).
    rewrite Hs, Hi, Hg. split; [done|]. cbn.
    split; [lia|]. split; [lia|done].
  - destruct (loop_run_budget _ _ _ _ _ Hloop) as (Hp & Hl & Hf).
    apply prefix_length in Hp. rewrite length_map in Hp.
    rewrite Hc, !constructions_app, !searches_app, !invokes_app, !generates_app,
      (loop_run_constructions _ _ _ _ _ Hloop), (loop_run_generates _ _ _ _ _ Hloop).
    cbn. rewrite !app_nil_r. split; [lia|].
    split; [done|]. split; [lia|].
    unfold search_parameters_fixed in *.
    do 4 (apply Forall_cons; split; [done|]).
    apply Forall_app. split; [done|by repeat constructor].
  - destruct (loop_run_budget _ _ _ _ _ Hloop) as (Hp & Hl & Hf).
    apply prefix_length in Hp. rewrite length_map in Hp.
    rewrite Hc, !constructions_app, !searches_app, !invokes_app, !generates_app,
      (loop_run_constructions _ _ _ _ _ Hloop), (loop_run_generates _ _ _ _ _ Hloop).
    cbn. split; [lia|].
    split; [done|]. split; [lia|].
    unfold search_parameters_fixed in *.
    by do 4 (apply Forall_cons; split; [done|]).
Qed.

End MoreStages.

(** X11.  The block of one result is 27 characters longer than its
    title, its url and the first 1500 characters of its content together:
    the content is the only bounded part. *)
Theorem format_item_length (it : SearchItem) :
  String.length (format_item it) =
    (27 + String.length (item_get it "title")
        + Nat.min 1500 (String.length (item_get it "content"))
        + String.length (item_get it "url"))%nat.
Proof.
  unfold format_item.
  rewrite !string_length_app, slice_to_length. cbn [String.length nl]. lia.
Qed.

(** ** The further theorems on the test doubles *)

Lemma report_failure_is_reported_witness :
  fst (pipeline_with svc_report_fails) = Ok ("Report generation failed: " +:+ exc_str boom) /\
  last (calls (snd (pipeline_with svc_report_fails))) =
    Some (CallGenerate
            (report_prompt
               ("sum" +:+ SEPARATOR +:+ "sum" +:+ SEPARATOR +:+ "sum") TOPIC "2025-01-01")
            gen_config (Raise boom)) /\
  take 4 (calls (snd (pipeline_with svc_report_fails))) = CONSTRUCTED.
Proof.
  apply (report_failure_is_reported svc_report_fails TOPIC fresh
           (fst (pipeline_with svc_report_fails)) (snd (pipeline_with svc_report_fails))
           (report_prompt
              ("sum" +:+ SEPARATOR +:+ "sum" +:+ SEPARATOR +:+ "sum") TOPIC "2025-01-01")
           boom).
  - vm_compute. reflexivity.
  - vm_compute. apply list_elem_of_here.
Defined.

Lemma construction_failure_is_reported_witness :
  fst (pipeline_with svc_groq_down) =
    Ok ("# Research Failed" +:+ nl +:+ nl +:+
        "An unexpected error occurred: " +:+ exc_str boom +:+ nl) /\
  last (calls (snd (pipeline_with svc_groq_down))) = Some (CallNew "ChatGroq" (Raise boom)) /\
  searches (calls (snd (pipeline_with svc_groq_down))) = [] /\
  invokes (calls (snd (pipeline_with svc_groq_down))) = [] /\
  generates (calls (snd (pipeline_with svc_groq_down))) = [].
Proof.
  apply (construction_failure_is_reported svc_groq_down TOPIC fresh
           (fst (pipeline_with svc_groq_down)) (snd (pipeline_with svc_groq_down))
           "ChatGroq" boom).
  - vm_compute. reflexivity.
  - vm_compute. apply list_elem_of_here.
Defined.

Lemma missing_research_key_stops_pipeline_witness :
  pipeline_with svc_no_tavily_key =
    (Ok ("# Research Failed" +:+ nl +:+ nl +:+
         "An unexpected error occurred: Missing GROQ_API_KEY or TAVILY_API_KEY" +:+ nl),
     mkState fresh []).
Proof.
  apply (missing_research_key_stops_pipeline svc_no_tavily_key TOPIC fresh (Some "gk") None).
  - vm_compute. reflexivity.
  - vm_compute. reflexivity.
  - vm_compute. reflexivity.
Defined.

Lemma missing_gemini_key_stops_pipeline_witness :
  searches (calls (snd (pipeline_with svc_no_gemini_key))) = [] /\
  invokes (calls (snd (pipeline_with svc_no_gemini_key))) = [] /\
  generates (calls (snd (pipeline_with svc_no_gemini_key))) = [] /\
  (Forall (fun c => call_ok c = true) (calls (snd (pipeline_with svc_no_gemini_key))) ->
   fst (pipeline_with svc_no_gemini_key) =
     Ok ("# Research Failed" +:+ nl +:+ nl +:+
         "An unexpected error occurred: Missing GEMINI_API_KEY" +:+ nl) /\
   calls (snd (pipeline_with svc_no_gemini_key)) =
     [CallNew "ChatGroq" (Ok tt); CallNew "TavilyClient" (Ok tt)]).
Proof.
  apply (missing_gemini_key_stops_pipeline svc_no_gemini_key TOPIC fresh
           (fst (pipeline_with svc_no_gemini_key)) (snd (pipeline_with svc_no_gemini_key))
           (Some "gk") (Some "tk") None).
  - vm_compute. reflexivity.
  - vm_compute. reflexivity.
  - vm_compute. reflexivity.
  - vm_compute. reflexivity.
  - vm_compute. reflexivity.
  - vm_compute. reflexivity.
Defined.

Lemma empty_secret_masks_environment_witness :
  os_environ svc_empty_secret !! "GROQ_API_KEY" = Some "gk" /\
  pipeline_with svc_empty_secret =
    (Ok ("# Research Failed" +:+ nl +:+ nl +:+
         "An unexpected error occurred: Missing GROQ_API_KEY or TAVILY_API_KEY" +:+ nl),
     mkState fresh []).
Proof.
  split; [vm_compute; reflexivity|].
  apply (empty_secret_masks_environment svc_empty_secret TOPIC fresh
           {[ "GROQ_API_KEY" := EmptyString ]}).
  - reflexivity.
  - left. vm_compute. reflexivity.
Defined.

(** The three keys are in the environment, and no secrets file is found. *)
Lemma unreadable_secrets_stop_pipeline_witness :
  os_environ svc_no_secrets_file = all_keys /\
  pipeline_with svc_no_secrets_file =
    (Ok ("# Research Failed" +:+ nl +:+ nl +:+
         "An unexpected error occurred: No secrets found." +:+ nl),
     mkState fresh []).
Proof.
  split; [reflexivity|].
  apply (unreadable_secrets_stop_pipeline svc_no_secrets_file TOPIC fresh secrets_not_found).
  reflexivity.
Defined.

Lemma research_topic_call_budget_witness :
  (forall e, fst (research_with svc_interrupted) = Raise e ->
     is_Exception e = false /\
     exists c, last (calls (snd (research_with svc_interrupted))) = Some c /\
               call_raised c = Some e) /\
  (Forall (fun c => call_escapes c = false) (calls (snd (research_with svc_interrupted))) ->
   exists txt, fst (research_with svc_interrupted) = Ok txt) /\
  map fst (searches (calls (snd (research_with svc_interrupted))))
    `prefix_of` sub_queries TOPIC /\
  (length (invokes (calls (snd (research_with svc_interrupted))))
   <= length (searches (calls (snd (research_with svc_interrupted)))) <= 3)%nat /\
  search_parameters_fixed (calls (snd (research_with svc_interrupted))) /\
  constructions (calls (snd (research_with svc_interrupted))) = [] /\
  generates (calls (snd (research_with svc_interrupted))) = [].
Proof.
  apply (research_topic_call_budget svc_interrupted test_agent TOPIC fresh).
  vm_compute. reflexivity.
Defined.

(** With no result for the second sub-query only, two summaries. *)
Lemma research_topic_skips_empty_searches_witness :
  fst (research_with svc_second_empty) = Ok ("sum" +:+ SEPARATOR +:+ "sum") /\
  map fst (searches (calls (snd (research_with svc_second_empty)))) = sub_queries TOPIC /\
  map fst (invokes (calls (snd (research_with svc_second_empty)))) =
    map (fun qr => summary_messages TOPIC qr.1 (search_text qr.2))
        (List.filter (fun qr => negb (search_empty qr.2))
                     (searches (calls (snd (research_with svc_second_empty))))) /\
  fst (research_with svc_second_empty) =
    Ok (match summaries_of (calls (snd (research_with svc_second_empty))) with
        | [] => "Could not find sufficient information on the topic."
        | [only] => only
        | first :: others => first +:+ SEPARATOR +:+ join SEPARATOR others
        end).
Proof.
  split; [vm_compute; reflexivity|].
  destruct (research_topic_skips_empty_searches svc_second_empty test_agent TOPIC fresh
              (fst (research_with svc_second_empty)) (snd (research_with svc_second_empty)))
    as [Hreturn _].
  - vm_compute. reflexivity.
  - vm_compute. repeat constructor.
  - destruct Hreturn as (Hq & Hm & Hres); [vm_compute; repeat constructor|].
    split; [exact Hq|]. split; [exact Hm|exact Hres].
Defined.

Lemma _search_web_sentinel_witness :
  exists r,
    calls (snd (_search_web svc_no_results test_agent "q" (mkState fresh []))) =
      ([] ++ [CallSearch "q" "advanced" 3 r])%list /\
    fst (_search_web svc_no_results test_agent "q" (mkState fresh [])) =
      outcome search_text r /\
    (fst (_search_web svc_no_results test_agent "q" (mkState fresh [])) = Ok "No results."
     <-> search_empty r = true) /\
    (forall e, r = Raise e ->
       fst (_search_web svc_no_results test_agent "q" (mkState fresh [])) =
         if is_Exception e then Ok ("Search failed: " +:+ exc_str e) else Raise e) /\
    (r = Ok (mkSearchResponse None) ->
     fst (_search_web svc_no_results test_agent "q" (mkState fresh [])) = Ok "No results.").
Proof.
  apply (_search_web_sentinel svc_no_results test_agent "q" (mkState fresh [])).
  vm_compute. reflexivity.
Defined.

Lemma create_report_one_request_witness :
  exists prompt r,
    calls (snd (run (create_report svc_report_fails (analyst test_system) "data" TOPIC) fresh)) =
      [CallGenerate prompt (mkGenConfig (3 # 10) 4096) r] /\
    prompt = report_prompt "data" TOPIC (now_strftime svc_report_fails "%Y-%m-%d" fresh) /\
    contains ("--- RESEARCH DATA START ---" +:+ nl +:+ "data" +:+ nl +:+
              "--- RESEARCH DATA END ---") prompt = true /\
    fst (run (create_report svc_report_fails (analyst test_system) "data" TOPIC) fresh) =
      match r with
      | Ok resp => Ok (text resp)
      | Raise e =>
          if is_Exception e
          then Ok ("Report generation failed: " +:+ exc_str e)
          else Raise e
      end.
Proof.
  apply (create_report_one_request svc_report_fails (analyst test_system) "data" TOPIC fresh).
  vm_compute. reflexivity.
Defined.

Lemma pipeline_call_budget_witness :
  (forall e, fst (pipeline_with svc_interrupted) = Raise e ->
     is_Exception e = false /\
     ((calls (snd (pipeline_with svc_interrupted)) = [] /\
       st_secrets svc_interrupted = Raise e)
      \/ exists c, last (calls (snd (pipeline_with svc_interrupted))) = Some c /\
                   call_raised c = Some e)) /\
  (escapes (st_secrets svc_interrupted) = false ->
   Forall (fun c => call_escapes c = false) (calls (snd (pipeline_with svc_interrupted))) ->
   exists txt, fst (pipeline_with svc_interrupted) = Ok txt) /\
  (length (constructions (calls (snd (pipeline_with svc_interrupted)))) <= 4)%nat /\
  (length (invokes (calls (snd (pipeline_with svc_interrupted))))
   <= length (searches (calls (snd (pipeline_with svc_interrupted)))) <= 3)%nat /\
  (length (generates (calls (snd (pipeline_with svc_interrupted)))) <= 1)%nat /\
  search_parameters_fixed (calls (snd (pipeline_with svc_interrupted))).
Proof.
  apply (pipeline_call_budget svc_interrupted TOPIC fresh).
  vm_compute. reflexivity.
Defined.

(** ** Lines *)

Lemma has_char_app c a b : has_char c (a +:+ b) = has_char c a || has_char c b.
Proof.
  induction a as [|x a IH]; [done|].
  change (String x a +:+ b) with (String x (a +:+ b)). cbn [has_char].
  by rewrite IH, orb_assoc.
Qed.

Lemma split_lines_cons s : exists line lines, split_lines s = line :: lines.
Proof.
  induction s as [|c s (line & lines & IH)]; [by eexists _, _|].
  cbn [split_lines]. rewrite IH. destruct (Ascii.eqb c LF); by eexists _, _.
Qed.

Lemma join_cons sep line lines :
  join sep (line :: lines) =
    match lines with [] => line | _ => line +:+ sep +:+ join sep lines end.
Proof. by destruct lines. Qed.

(** Joining the lines of a text with line feeds gives the text back. *)
Lemma join_split_lines s : join nl (split_lines s) = s.
Proof.
  induction s as [|c s IH]; [done|].
  cbn [split_lines]. destruct (split_lines_cons s) as (line & lines & Hs).
  rewrite Hs in *. destruct (Ascii.eqb_spec c LF) as [->|Hc].
  - rewrite join_cons, IH. done.
  - rewrite join_cons in *. destruct lines; [by rewrite IH|].
    change (String c line +:+ nl +:+ join nl (s0 :: lines))
      with (String c (line +:+ nl +:+ join nl (s0 :: lines))).
    by rewrite IH.
Qed.

Lemma split_lines_lf_free s : Forall (fun line => has_char LF line = false) (split_lines s).
Proof.
  induction s as [|c s IH]; [by repeat constructor|].
  cbn [split_lines]. destruct (Ascii.eqb_spec c LF) as [->|Hc].
  - by constructor.
  - destruct (split_lines_cons s) as (line & lines & Hs). rewrite Hs in *.
    apply Forall_cons in IH as [Hl Hls]. constructor; [|done].
    cbn [has_char]. rewrite Hl. by apply Ascii.eqb_neq in Hc as ->.
Qed.

Lemma split_lines_char_free c s :
  has_char c s = false -> Forall (fun line => has_char c line = false) (split_lines s).
Proof.
  induction s as [|x s IH]; [by repeat constructor|].
  cbn [has_char split_lines]. intros [Hx Hs]%orb_false_elim. specialize (IH Hs).
  destruct (Ascii.eqb x LF); [by constructor|].
  destruct (split_lines_cons s) as (line & lines & Hl). rewrite Hl in *.
  apply Forall_cons in IH as [Hline Hls]. constructor; [|done].
  cbn [has_char]. by rewrite Hx, Hline.
Qed.

Lemma split_lines_one line :
  has_char LF line = false -> split_lines line = [line].
Proof.
  induction line as [|c line IH]; [done|].
  cbn [has_char split_lines]. intros [Hc Hl]%orb_false_elim.
  by rewrite Hc, (IH Hl).
Qed.

Lemma split_lines_app line rest :
  has_char LF line = false ->
  split_lines (line +:+ nl +:+ rest) = line :: split_lines rest.
Proof.
  induction line as [|c line IH]; [done|].
  cbn [has_char]. intros [Hc Hl]%orb_false_elim.
  change (String c line +:+ nl +:+ rest) with (String c (line +:+ nl +:+ rest)).
  cbn [split_lines]. by rewrite Hc, (IH Hl).
Qed.

(** Splitting a join of lines without line feed gives the lines back. *)
Lemma split_lines_join line lines :
  Forall (fun l => has_char LF l = false) (line :: lines) ->
  split_lines (join nl (line :: lines)) = line :: lines.
Proof.
  revert line. induction lines as [|l lines IH]; intros line [Hl Hls]%Forall_cons.
  - by apply split_lines_one.
  - rewrite join_cons, (split_lines_app _ _ Hl), (IH _ Hls). done.
Qed.

Lemma has_char_join c sep lines :
  has_char c sep = false ->
  Forall (fun l => has_char c l = false) lines ->
  has_char c (join sep lines) = false.
Proof.
  intros Hsep. induction 1 as [|l lines Hl Hls IH]; [done|].
  rewrite join_cons. destruct lines; [done|].
  by rewrite !has_char_app, Hl, Hsep, IH.
Qed.

Lemma has_char_slice_from c n s :
  has_char c s = false -> has_char c (slice_from n s) = false.
Proof.
  revert s. induction n as [|n IH]; intros [|x s]; cbn; try done.
  intros [_ Hs]%orb_false_elim. by apply IH.
Qed.

Lemma slice_from_app a b : slice_from (String.length a) (a +:+ b) = b.
Proof. induction a as [|x a IH]; [by destruct b|exact IH]. Qed.

(** ** Stars *)

Lemma line_star_free_of_free s : has_char STAR s = false -> line_star_free s = true.
Proof.
  induction s as [|c s IH]; [done|].
  cbn [has_char line_star_free]. intros [-> Hs]%orb_false_elim.
  destruct (Ascii.eqb c LF); [done|by apply IH].
Qed.

Lemma lone_stars_of_free s : has_char STAR s = false -> lone_stars s = true.
Proof.
  induction s as [|c s IH]; [done|].
  cbn [has_char lone_stars]. intros [-> Hs]%orb_false_elim. by apply IH.
Qed.

Lemma lone_stars_tail c s : lone_stars (String c s) = true -> lone_stars s = true.
Proof. cbn [lone_stars]. by intros [_ Hs]%andb_prop. Qed.

Lemma italic_close_none s : line_star_free s = true -> italic_close s = None.
Proof.
  induction s as [|c s IH]; [done|].
  cbn [line_star_free italic_close].
  destruct (Ascii.eqb_spec c LF) as [->|Hc]; [done|].
  destruct (Ascii.eqb c STAR); [done|]. intros Hs. by rewrite (IH Hs).
Qed.

Lemma prefix_cons a m b l :
  String.prefix (String a m) (String b l) =
    if Ascii.eqb a b then String.prefix m l else false.
Proof.
  change (String.prefix (String a m) (String b l))
    with (if ascii_dec a b then String.prefix m l else false).
  destruct (ascii_dec a b) as [->|Hab].
  - by rewrite Ascii.eqb_refl.
  - by apply Ascii.eqb_neq in Hab as ->.
Qed.

Lemma prefix_two_stars s :
  String.prefix "**" s = true -> exists rest, s = String STAR (String STAR rest).
Proof.
  destruct s as [|a [|b s]]; [done| |].
  - rewrite prefix_cons. by destruct (Ascii.eqb _ a).
  - rewrite !prefix_cons.
    destruct (Ascii.eqb_spec "*"%char a) as [<-|]; [|done].
    destruct (Ascii.eqb_spec "*"%char b) as [<-|]; [|done]. eauto.
Qed.

Lemma bold_match_lone s : lone_stars s = true -> bold_match s = None.
Proof.
  unfold bold_match. destruct (String.prefix "**" s) eqn:Hp; [|done].
  destruct (prefix_two_stars _ Hp) as (rest & ->). done.
Qed.

Lemma italic_match_lone s : lone_stars s = true -> italic_match s = None.
Proof.
  destruct s as [|o [|c s]]; try done.
  cbn [lone_stars line_star_free italic_match].
  destruct (Ascii.eqb o STAR); [|done]. cbn [andb].
  destruct (Ascii.eqb_spec c LF) as [->|Hc]; [done|].
  destruct (Ascii.eqb c STAR); [done|].
  intros [Hline _]%andb_prop. cbn. by rewrite (italic_close_none _ Hline).
Qed.

(** A text no line of which holds two stars is left as it is by the bold
    and the italic pass. *)
Lemma re_sub_bold_from_lone n s : lone_stars s = true -> re_sub_bold_from n s = s.
Proof.
  revert s. induction n as [|n IH]; intros s Hs; [done|].
  cbn [re_sub_bold_from]. rewrite (bold_match_lone _ Hs).
  destruct s as [|c s]; [done|]. by rewrite (IH _ (lone_stars_tail _ _ Hs)).
Qed.

Lemma re_sub_italic_from_lone n s : lone_stars s = true -> re_sub_italic_from n s = s.
Proof.
  revert s. induction n as [|n IH]; intros s Hs; [done|].
  cbn [re_sub_italic_from]. rewrite (italic_match_lone _ Hs).
  destruct s as [|c s]; [done|]. by rewrite (IH _ (lone_stars_tail _ _ Hs)).
Qed.

(** ** Enough fuel *)

Lemma slice_from_length n s : String.length (slice_from n s) = (String.length s - n)%nat.
Proof. revert s. induction n as [|n IH]; intros [|c s]; cbn; try done; lia. Qed.

Lemma bold_close_length s group after :
  bold_close s = Some (group, after) ->
  (String.length group + String.length after + 2 = String.length s)%nat.
Proof.
  revert group. induction s as [|c s IH]; intros group; [done|].
  cbn [bold_close].
  destruct (String.prefix "**" (String c s)) eqn:Hp.
  - destruct (prefix_two_stars _ Hp) as (r & [= -> ->]).
    cbn [slice_from]. intros [= <- <-]. cbn. lia.
  - destruct (Ascii.eqb c LF); [done|].
    destruct (bold_close s) as [[g a]|]; [|done].
    intros [= <- <-]. specialize (IH g eq_refl). cbn. lia.
Qed.

Lemma bold_match_length s group after :
  bold_match s = Some (group, after) ->
  (String.length after < String.length s)%nat.
Proof.
  unfold bold_match. destruct (String.prefix "**" s); [|done].
  pose proof (slice_from_length 2 s) as Hlen.
  destruct (slice_from 2 s) as [|c rest]; [done|].
  destruct (Ascii.eqb c LF); [done|].
  destruct (bold_close rest) as [[g a]|] eqn:Hc; [|done].
  intros [= <- <-]. apply bold_close_length in Hc. cbn in Hlen. lia.
Qed.

Lemma italic_close_length s group after :
  italic_close s = Some (group, after) ->
  (String.length after < String.length s)%nat.
Proof.
  revert group. induction s as [|c s IH]; intros group; [done|].
  cbn [italic_close].
  destruct (Ascii.eqb c STAR); [intros [= <- <-]; cbn; lia|].
  destruct (Ascii.eqb c LF); [done|].
  destruct (italic_close s) as [[g a]|]; [|done].
  intros [= <- <-]. specialize (IH g eq_refl). cbn. lia.
Qed.

Lemma italic_match_length s group after :
  italic_match s = Some (group, after) ->
  (String.length after < String.length s)%nat.
Proof.
  destruct s as [|o [|c s]]; try done. cbn [italic_match].
  destruct (_ && _); [|done].
  destruct (italic_close s) as [[g a]|] eqn:Hc; [|done].
  intros [= <- <-]. apply italic_close_length in Hc. cbn. lia.
Qed.

(** The passes scan with the length of the text as fuel, and more fuel
    changes nothing. *)
Lemma re_sub_bold_fuel n s :
  (String.length s <= n)%nat -> re_sub_bold_from n s = re_sub_bold s.
Proof.
  unfold re_sub_bold.
  remember (String.length s) as len eqn:Hlen.
  revert s Hlen n. induction len as [len IH] using lt_wf_ind. intros s -> n Hn.
  destruct n as [|n].
  - destruct s; [done|cbn in Hn; lia].
  - destruct s as [|c s]; [done|].
    cbn [String.length re_sub_bold_from].
    destruct (bold_match (String c s)) as [[g a]|] eqn:Hm.
    + pose proof (bold_match_length _ _ _ Hm) as Hlt. cbn in Hlt, Hn.
      rewrite (IH (String.length a) ltac:(cbn; lia) a eq_refl n ltac:(lia)).
      rewrite (IH (String.length a) ltac:(cbn; lia) a eq_refl (String.length s) ltac:(lia)).
      done.
    + cbn in Hn.
      rewrite (IH (String.length s) ltac:(cbn; lia) s eq_refl n ltac:(lia)).
      done.
Qed.

Lemma re_sub_italic_fuel n s :
  (String.length s <= n)%nat -> re_sub_italic_from n s = re_sub_italic s.
Proof.
  unfold re_sub_italic.
  remember (String.length s) as len eqn:Hlen.
  revert s Hlen n. induction len as [len IH] using lt_wf_ind. intros s -> n Hn.
  destruct n as [|n].
  - destruct s; [done|cbn in Hn; lia].
  - destruct s as [|c s]; [done|].
    cbn [String.length re_sub_italic_from].
    destruct (italic_match (String c s)) as [[g a]|] eqn:Hm.
    + pose proof (italic_match_length _ _ _ Hm) as Hlt. cbn in Hlt, Hn.
      rewrite (IH (String.length a) ltac:(cbn; lia) a eq_refl n ltac:(lia)).
      rewrite (IH (String.length a) ltac:(cbn; lia) a eq_refl (String.length s) ltac:(lia)).
      done.
    + cbn in Hn.
      rewrite (IH (String.length s) ltac:(cbn; lia) s eq_refl n ltac:(lia)).
      done.
Qed.

(** ** Headings *)

Lemma heading_line_other marker tag line :
  String.prefix marker line = false -> heading_line marker tag line = line.
Proof. unfold heading_line. by intros ->. Qed.

Lemma heading_line_free c marker tag line :
  has_char c "<" = false -> has_char c ">" = false -> has_char c "</" = false ->
  has_char c tag = false ->
  has_char c line = false ->
  has_char c (heading_line marker tag line) = false.
Proof.
  intros H1 H2 H3 Ht Hl. unfold heading_line.
  destruct (_ && _); [|done].
  by rewrite !has_char_app, H1, H2, H3, Ht, (has_char_slice_from _ _ _ Hl).
Qed.

Lemma heading_of_lf_free line :
  has_char LF line = false -> has_char LF (heading_of line) = false.
Proof. intros Hl. unfold heading_of. by repeat apply heading_line_free. Qed.

Lemma heading_of_star_free line :
  has_char STAR line = false -> has_char STAR (heading_of line) = false.
Proof. intros Hl. unfold heading_of. by repeat apply heading_line_free. Qed.

(** A line that does not start with a hash is no heading. *)
Lemma heading_of_other c line :
  Ascii.eqb HASH c = false -> heading_of (String c line) = String c line.
Proof.
  intros Hc. unfold heading_of, HASH in *.
  rewrite (heading_line_other "### " "h3") by (by rewrite prefix_cons, Hc).
  rewrite (heading_line_other "## " "h2") by (by rewrite prefix_cons, Hc).
  rewrite (heading_line_other "# " "h1") by (by rewrite prefix_cons, Hc).
  done.
Qed.

Lemma heading_of_empty : heading_of EmptyString = EmptyString.
Proof. done. Qed.

Lemma split_lines_join_ne lines :
  lines <> [] ->
  Forall (fun l => has_char LF l = false) lines ->
  split_lines (join nl lines) = lines.
Proof. destruct lines as [|line lines]; [done|]. intros _. apply split_lines_join. Qed.

Lemma re_sub_heading_lines marker tag lines :
  lines <> [] ->
  Forall (fun l => has_char LF l = false) lines ->
  re_sub_heading marker tag (join nl lines) = join nl (map (heading_line marker tag) lines).
Proof.
  intros Hne Hfree. unfold re_sub_heading.
  destruct lines as [|line lines]; [done|]. by rewrite split_lines_join.
Qed.

Lemma heading_lines_lf_free marker tag lines :
  has_char LF tag = false ->
  Forall (fun l => has_char LF l = false) lines ->
  Forall (fun l => has_char LF l = false) (map (heading_line marker tag) lines).
Proof.
  intros Ht Hfree. apply Forall_fmap. eapply Forall_impl; [exact Hfree|].
  intros l Hl. cbn. by apply heading_line_free.
Qed.

Lemma map_headings lines :
  map (heading_line "# " "h1")
      (map (heading_line "## " "h2") (map (heading_line "### " "h3") lines)) =
    map heading_of lines.
Proof. induction lines as [|l lines IH]; [done|]. cbn [map]. by rewrite IH. Qed.

(** The three heading passes work line by line. *)
Lemma headings_by_line text :
  re_sub_heading "# " "h1" (re_sub_heading "## " "h2" (re_sub_heading "### " "h3" text)) =
    join nl (map heading_of (split_lines text)).
Proof.
  pose proof (split_lines_lf_free text) as Hfree.
  assert (split_lines text <> []) as Hne.
  { destruct (split_lines_cons text) as (line & lines & ->). done. }
  unfold re_sub_heading at 3.
  rewrite re_sub_heading_lines;
    [|by destruct (split_lines text)|by apply heading_lines_lf_free].
  rewrite re_sub_heading_lines;
    [|by destruct (split_lines text)|by repeat apply heading_lines_lf_free].
  by rewrite map_headings.
Qed.

(** When, after the heading passes, no line holds two stars, the page is
    made by the bullet loop from the lines rendered as headings. *)
Lemma convert_lone text :
  lone_stars (join nl (map heading_of (split_lines text))) = true ->
  convert_markdown_to_html text =
    join "<br>" (bullets_loop (map heading_of (split_lines text)) false []).
Proof.
  intros Hlone. unfold convert_markdown_to_html.
  rewrite headings_by_line. unfold re_sub_bold, re_sub_italic.
  rewrite (re_sub_bold_from_lone _ _ Hlone), (re_sub_italic_from_lone _ _ Hlone).
  rewrite split_lines_join_ne; [done| |].
  - destruct (split_lines_cons text) as (line & lines & ->). done.
  - apply Forall_fmap. eapply Forall_impl; [apply split_lines_lf_free|].
    intros l Hl. by apply heading_of_lf_free.
Qed.

(** ** Bullets *)

Lemma prefix_bullet_star line :
  String.prefix "* " line = true -> has_char STAR line = true.
Proof.
  destruct line as [|c line]; [done|]. rewrite prefix_cons.
  destruct (Ascii.eqb_spec "*"%char c) as [<-|]; done.
Qed.

Lemma bullets_loop_plain lines acc :
  Forall (fun l => String.prefix "* " l = false) lines ->
  bullets_loop lines false acc = (acc ++ lines)%list.
Proof.
  intros Hplain. revert acc.
  induction Hplain as [|l lines Hl _ IH]; intros acc; [by rewrite app_nil_r|].
  cbn [bullets_loop]. rewrite Hl, IH, <- app_assoc. done.
Qed.

Lemma bullets_loop_items items acc :
  bullets_loop (map (fun i => "* " +:+ i) items) true acc =
    (acc ++ map (fun i => "<li>" +:+ i +:+ "</li>") items ++ ["</ul>"])%list.
Proof.
  revert acc. induction items as [|i items IH]; intros acc; [done|].
  cbn [map bullets_loop]. rewrite (string_prefix_app "* " i).
  change 2%nat with (String.length "* "). rewrite slice_from_app, IH, <- app_assoc. done.
Qed.

Lemma bullets_loop_free c lines in_list acc :
  has_char c "<ul>" = false -> has_char c "</ul>" = false ->
  has_char c "<li>" = false -> has_char c "</li>" = false ->
  Forall (fun l => has_char c l = false) lines ->
  Forall (fun l => has_char c l = false) acc ->
  Forall (fun l => has_char c l = false) (bullets_loop lines in_list acc).
Proof.
  intros H1 H2 H3 H4 Hlines. revert in_list acc.
  induction Hlines as [|l lines Hl _ IH]; intros in_list acc Hacc.
  - cbn. destruct in_list; [|done]. apply Forall_app. by repeat constructor.
  - cbn [bullets_loop]. destruct (String.prefix "* " l); apply IH.
    + apply Forall_app. split.
      * destruct in_list; [done|]. apply Forall_app. by repeat constructor.
      * repeat constructor. by rewrite !has_char_app, H3, H4, (has_char_slice_from _ _ _ Hl).
    + apply Forall_app. split; [|by repeat constructor].
      destruct in_list; [|done]. apply Forall_app. by repeat constructor.
Qed.

Lemma occurrences_app x l1 l2 :
  occurrences x (l1 ++ l2) = (occurrences x l1 + occurrences x l2)%nat.
Proof. unfold occurrences. by rewrite List.filter_app, length_app. Qed.

Lemma occurrences_cons x y l :
  occurrences x (y :: l) = ((if String.eqb x y then 1 else 0) + occurrences x l)%nat.
Proof. unfold occurrences. cbn. by destruct (String.eqb x y). Qed.

(** The invariant of the bullet loop: with the list open or not, the
    opening and closing tags it has added and will add are as many. *)
Lemma bullets_loop_balance lines in_list acc :
  (occurrences "<ul>" (bullets_loop lines in_list acc)
   + occurrences "</ul>" acc + occurrences "</ul>" lines
   + (if in_list then 1 else 0)
   = occurrences "</ul>" (bullets_loop lines in_list acc)
     + occurrences "<ul>" acc + occurrences "<ul>" lines)%nat.
Proof.
  assert (occurrences "<ul>" ["<ul>"] = 1%nat) as Hoo by reflexivity.
  assert (occurrences "</ul>" ["<ul>"] = 0%nat) as Hco by reflexivity.
  assert (occurrences "<ul>" ["</ul>"] = 0%nat) as Hoc by reflexivity.
  assert (occurrences "</ul>" ["</ul>"] = 1%nat) as Hcc by reflexivity.
  assert (forall r, occurrences "<ul>" ["<li>" +:+ r] = 0%nat) as Hol by reflexivity.
  assert (forall r, occurrences "</ul>" ["<li>" +:+ r] = 0%nat) as Hcl by reflexivity.
  assert (forall x, occurrences x [] = 0%nat) as Hnil by reflexivity.
  revert in_list acc. induction lines as [|l lines IH]; intros in_list acc.
  - cbn [bullets_loop]. destruct in_list; rewrite ?occurrences_app, ?Hoc, ?Hcc, ?Hnil; lia.
  - cbn [bullets_loop]. rewrite !(occurrences_cons _ l).
    destruct (String.prefix "* " l) eqn:Hp.
    + assert (String.eqb "<ul>" l = false /\ String.eqb "</ul>" l = false) as [-> ->].
      { destruct l as [|c l]; [done|]. rewrite prefix_cons in Hp.
        destruct (Ascii.eqb_spec "*"%char c) as [<-|]; [|done]. done. }
      destruct in_list.
      * specialize (IH true (acc ++ ["<li>" +:+ slice_from 2 l +:+ "</li>"])%list).
        rewrite !occurrences_app, Hol, Hcl in IH. lia.
      * specialize (IH true ((acc ++ ["<ul>"]) ++ ["<li>" +:+ slice_from 2 l +:+ "</li>"])%list).
        rewrite !occurrences_app, Hol, Hcl, Hoo, Hco in IH. lia.
    + destruct in_list.
      * specialize (IH false ((acc ++ ["</ul>"]) ++ [l])%list).
        rewrite !occurrences_app, !(occurrences_cons _ l), Hoc, Hcc, !Hnil in IH.
        destruct (String.eqb "<ul>" l), (String.eqb "</ul>" l); lia.
      * specialize (IH false (acc ++ [l])%list).
        rewrite !occurrences_app, !(occurrences_cons _ l), !Hnil in IH.
        destruct (String.eqb "<ul>" l), (String.eqb "</ul>" l); lia.
Qed.

(** ** The page *)

Lemma heading_of_no_hash line :
  String.prefix "#" line = false -> heading_of line = line.
Proof.
  destruct line as [|c line]; [done|]. rewrite prefix_cons.
  destruct (Ascii.eqb "#" c) eqn:Hc; [by destruct line|]. intros _.
  by apply heading_of_other.
Qed.

Lemma heading_of_hash_free line : has_char HASH line = false -> heading_of line = line.
Proof.
  intros Hfree. apply heading_of_no_hash.
  destruct line as [|c line]; [done|]. rewrite prefix_cons.
  cbn [has_char] in Hfree. apply orb_false_elim in Hfree as [Hc _].
  unfold HASH in Hc. by rewrite Ascii.eqb_sym, Hc.
Qed.

Lemma map_heading_of_hash_free lines :
  Forall (fun l => has_char HASH l = false) lines -> map heading_of lines = lines.
Proof.
  induction 1 as [|l lines Hl _ IH]; [done|].
  cbn [map]. by rewrite IH, heading_of_hash_free.
Qed.

Lemma prefix_bullet_free line :
  has_char STAR line = false -> String.prefix "* " line = false.
Proof.
  intros Hfree. destruct (String.prefix "* " line) eqn:Hp; [|done].
  apply prefix_bullet_star in Hp. congruence.
Qed.

Lemma heading_line_match marker tag x :
  x <> EmptyString ->
  heading_line marker tag (marker +:+ x) =
    "<" +:+ tag +:+ ">" +:+ x +:+ "</" +:+ tag +:+ ">".
Proof.
  intros Hx. unfold heading_line.
  rewrite string_prefix_app, string_length_app, slice_from_app.
  destruct x as [|c x]; [done|].
  replace (_ <? _)%nat with true; [done|].
  symmetry. apply Nat.ltb_lt. cbn [String.length]. lia.
Qed.

(** ** Line feeds of the page *)

Lemma split_lines_length_cons c s s' :
  length (split_lines s) = length (split_lines s') ->
  length (split_lines (String c s)) = length (split_lines (String c s')).
Proof.
  intros Hlen. cbn [split_lines].
  destruct (split_lines_cons s) as (l & ls & Hs).
  destruct (split_lines_cons s') as (l' & ls' & Hs').
  rewrite Hs, Hs' in *. destruct (Ascii.eqb c LF); cbn in *; lia.
Qed.

Lemma split_lines_length_other c s :
  Ascii.eqb c LF = false ->
  length (split_lines (String c s)) = length (split_lines s).
Proof.
  intros Hc. cbn [split_lines]. rewrite Hc.
  destruct (split_lines_cons s) as (l & ls & ->). done.
Qed.

Lemma split_lines_length_app before s :
  has_char LF before = false ->
  length (split_lines (before +:+ s)) = length (split_lines s).
Proof.
  induction before as [|c before IH]; [done|].
  cbn [has_char]. intros [Hc Hrest]%orb_false_elim.
  change (String c before +:+ s) with (String c (before +:+ s)).
  rewrite split_lines_length_other by done. by apply IH.
Qed.

Lemma bold_close_lines s group after :
  bold_close s = Some (group, after) ->
  has_char LF group = false /\
  length (split_lines s) = length (split_lines after).
Proof.
  revert group. induction s as [|c s IH]; intros group; [done|].
  cbn [bold_close].
  destruct (String.prefix "**" (String c s)) eqn:Hp.
  - destruct (prefix_two_stars _ Hp) as (r & [= -> ->]).
    cbn [slice_from]. intros [= <- <-]. split; [done|].
    by rewrite !split_lines_length_other.
  - destruct (Ascii.eqb c LF) eqn:Hc; [done|].
    destruct (bold_close s) as [[g a]|]; [|done].
    intros [= <- <-]. destruct (IH g eq_refl) as [Hg Hlen].
    split; [cbn [has_char]; by rewrite Hc|].
    by rewrite split_lines_length_other.
Qed.

Lemma bold_match_lines s group after :
  bold_match s = Some (group, after) ->
  has_char LF group = false /\
  length (split_lines s) = length (split_lines after).
Proof.
  unfold bold_match.
  destruct (String.prefix "**" s) eqn:Hp; [|done].
  destruct (prefix_two_stars _ Hp) as (r & ->). cbn [slice_from].
  destruct r as [|c r]; [done|].
  destruct (Ascii.eqb c LF) eqn:Hc; [done|].
  destruct (bold_close r) as [[g a]|] eqn:Hclose; [|done].
  intros [= <- <-]. destruct (bold_close_lines _ _ _ Hclose) as [Hg Hlen].
  split; [cbn [has_char]; by rewrite Hc|].
  by rewrite !split_lines_length_other.
Qed.

Lemma italic_close_lines s group after :
  italic_close s = Some (group, after) ->
  has_char LF group = false /\
  length (split_lines s) = length (split_lines after).
Proof.
  revert group. induction s as [|c s IH]; intros group; [done|].
  cbn [italic_close].
  destruct (Ascii.eqb c STAR) eqn:Hstar.
  - intros [= <- <-]. split; [done|].
    apply Ascii.eqb_eq in Hstar as ->. by rewrite split_lines_length_other.
  - destruct (Ascii.eqb c LF) eqn:Hc; [done|].
    destruct (italic_close s) as [[g a]|]; [|done].
    intros [= <- <-]. destruct (IH g eq_refl) as [Hg Hlen].
    split; [cbn [has_char]; by rewrite Hc|].
    by rewrite split_lines_length_other.
Qed.

Lemma italic_match_lines s group after :
  italic_match s = Some (group, after) ->
  has_char LF group = false /\
  length (split_lines s) = length (split_lines after).
Proof.
  destruct s as [|o [|c r]]; try done. cbn [italic_match].
  destruct (Ascii.eqb o STAR) eqn:Ho; [|done].
  destruct (Ascii.eqb c STAR); [done|].
  destruct (Ascii.eqb c LF) eqn:Hc; [done|]. cbn [andb negb].
  destruct (italic_close r) as [[g a]|] eqn:Hclose; [|done].
  intros [= <- <-]. destruct (italic_close_lines _ _ _ Hclose) as [Hg Hlen].
  split; [cbn [has_char]; by rewrite Hc|].
  apply Ascii.eqb_eq in Ho as ->.
  by rewrite !split_lines_length_other.
Qed.

(** The bold and the italic pass keep the line feeds of the text: a
    match lies within one line. *)
Lemma re_sub_bold_from_lines n s :
  length (split_lines (re_sub_bold_from n s)) = length (split_lines s).
Proof.
  revert s. induction n as [|n IH]; intros s; [done|].
  cbn [re_sub_bold_from].
  destruct (bold_match s) as [[g a]|] eqn:Hm.
  - destruct (bold_match_lines _ _ _ Hm) as [Hg ->].
    rewrite (split_lines_length_app "<strong>") by done.
    rewrite (split_lines_length_app g) by done.
    rewrite (split_lines_length_app "</strong>") by done.
    apply IH.
  - destruct s as [|c s]; [done|]. apply split_lines_length_cons, IH.
Qed.

Lemma re_sub_italic_from_lines n s :
  length (split_lines (re_sub_italic_from n s)) = length (split_lines s).
Proof.
  revert s. induction n as [|n IH]; intros s; [done|].
  cbn [re_sub_italic_from].
  destruct (italic_match s) as [[g a]|] eqn:Hm.
  - destruct (italic_match_lines _ _ _ Hm) as [Hg ->].
    rewrite (split_lines_length_app "<em>") by done.
    rewrite (split_lines_length_app g) by done.
    rewrite (split_lines_length_app "</em>") by done.
    apply IH.
  - destruct s as [|c s]; [done|]. apply split_lines_length_cons, IH.
Qed.

(** The bullet loop passes every line on, as it is or as a list item. *)
Lemma bullets_loop_length lines in_list acc :
  (length acc + length lines <= length (bullets_loop lines in_list acc))%nat.
Proof.
  revert in_list acc. induction lines as [|l lines IH]; intros in_list acc.
  - cbn. destruct in_list; rewrite ?length_app; cbn; lia.
  - cbn [bullets_loop]. destruct (String.prefix "* " l).
    + etrans; [|apply IH]. destruct in_list; rewrite !length_app; cbn; lia.
    + etrans; [|apply IH]. destruct in_list; rewrite !length_app; cbn; lia.
Qed.

(** X12.  The page never holds a line feed: every line feed of the text
    has become a [<br>].  The page is made of pieces without line feed
    joined by [<br>], and there is at least one piece for each line of the
    text. *)
Theorem page_has_no_line_feed text :
  has_char LF (convert_markdown_to_html text) = false /\
  exists html_lines,
    convert_markdown_to_html text = join "<br>" html_lines /\
    Forall (fun line => has_char LF line = false) html_lines /\
    (length (split_lines text) <= length html_lines)%nat.
Proof.
  assert (Forall (fun line => has_char LF line = false)
            (bullets_loop
               (split_lines
                  (re_sub_italic
                     (re_sub_bold
                        (re_sub_heading "# " "h1"
                           (re_sub_heading "## " "h2" (re_sub_heading "### " "h3" text))))))
               false [])) as Hfree.
  { apply bullets_loop_free; try done. apply split_lines_lf_free. }
  split.
  - unfold convert_markdown_to_html. by apply has_char_join.
  - eexists. split; [reflexivity|]. split; [exact Hfree|].
    etrans; [|apply bullets_loop_length]. cbn [length plus].
    unfold re_sub_italic, re_sub_bold.
    rewrite re_sub_italic_from_lines, re_sub_bold_from_lines, headings_by_line.
    rewrite split_lines_join_ne.
    + by rewrite length_map.
    + destruct (split_lines_cons text) as (l & ls & ->). done.
    + apply Forall_fmap. eapply Forall_impl; [apply split_lines_lf_free|].
      intros l Hl. by apply heading_of_lf_free.
Qed.

(** X13.  The bullet loop closes every list it opens: among the lines it
    produces, the [<ul>] it has added are as many as the [</ul>] it has
    added (the lines of the text that are themselves such a tag are passed
    on and counted apart). *)
Theorem bullet_lists_are_closed lines :
  (occurrences "<ul>" (bullets_loop lines false []) + occurrences "</ul>" lines
   = occurrences "</ul>" (bullets_loop lines false []) + occurrences "<ul>" lines)%nat.
Proof.
  pose proof (bullets_loop_balance lines false []) as Hbalance.
  change (occurrences "</ul>" []) with 0%nat in Hbalance.
  change (occurrences "<ul>" []) with 0%nat in Hbalance.
  cbv iota in Hbalance. lia.
Qed.

(** Without any star the bold pass, the italic pass and the bullet loop
    change nothing: the lines are rendered as headings and joined. *)
Lemma star_free_page text :
  has_char STAR text = false ->
  convert_markdown_to_html text = join "<br>" (map heading_of (split_lines text)).
Proof.
  intros Hstar.
  assert (Forall (fun l => has_char STAR l = false) (map heading_of (split_lines text)))
    as Hfree.
  { apply Forall_fmap. eapply Forall_impl; [by apply split_lines_char_free|].
    intros l Hl. by apply heading_of_star_free. }
  rewrite convert_lone.
  - rewrite bullets_loop_plain; [done|].
    eapply Forall_impl; [exact Hfree|]. intros l Hl. by apply prefix_bullet_free.
  - apply lone_stars_of_free. by apply has_char_join.
Qed.

(** X14.  A text without any star is rendered line by line: each line as
    a heading or as it is, the lines joined by [<br>].  Without any hash
    either, the page is the text with [<br>] for each line feed. *)
Theorem text_without_stars text :
  has_char STAR text = false ->
  convert_markdown_to_html text = join "<br>" (map heading_of (split_lines text)) /\
  (has_char HASH text = false ->
   convert_markdown_to_html text = join "<br>" (split_lines text)).
Proof.
  intros Hstar. split; [by apply star_free_page|].
  intros Hhash. rewrite (star_free_page _ Hstar). f_equal.
  apply map_heading_of_hash_free. by apply split_lines_char_free.
Qed.

(** X15.  A one-line text made of a heading marker and a title without
    star is rendered as the heading of its level; the marker "### " is a
    third-level heading, not a first-level one.  A marker with nothing
    after it is left as it is. *)
Theorem heading_lines_rendered title :
  title <> EmptyString ->
  has_char STAR title = false ->
  has_char LF title = false ->
  convert_markdown_to_html ("### " +:+ title) = "<h3>" +:+ title +:+ "</h3>" /\
  convert_markdown_to_html ("## " +:+ title) = "<h2>" +:+ title +:+ "</h2>" /\
  convert_markdown_to_html ("# " +:+ title) = "<h1>" +:+ title +:+ "</h1>" /\
  convert_markdown_to_html "# " = "# ".
Proof.
  intros Hne Hstar Hlf.
  assert (forall marker, has_char STAR marker = false -> has_char LF marker = false ->
            convert_markdown_to_html (marker +:+ title) = heading_of (marker +:+ title))
    as Hone.
  { intros marker Hs Hl.
    rewrite star_free_page by (by rewrite has_char_app, Hs, Hstar).
    rewrite split_lines_one; [done|]. by rewrite has_char_app, Hl, Hlf. }
  split; [|split; [|split; [|by vm_compute]]].
  - rewrite Hone by done. unfold heading_of.
    rewrite (heading_line_match "### " "h3") by done. done.
  - rewrite Hone by done. unfold heading_of.
    rewrite (heading_line_other "### " "h3") by done.
    rewrite (heading_line_match "## " "h2") by done. done.
  - rewrite Hone by done. unfold heading_of.
    rewrite (heading_line_other "### " "h3") by done.
    rewrite (heading_line_other "## " "h2") by done.
    rewrite (heading_line_match "# " "h1") by done. done.
Qed.

Lemma line_star_free_app a b :
  has_char STAR a = false -> line_star_free b = true -> line_star_free (a +:+ b) = true.
Proof.
  intros Ha Hb. induction a as [|c a IH]; [exact Hb|].
  change (String c a +:+ b) with (String c (a +:+ b)).
  cbn [has_char line_star_free] in *. apply orb_false_elim in Ha as [-> Ha].
  destruct (Ascii.eqb c LF); [done|by apply IH].
Qed.

Lemma lone_stars_app a b :
  has_char STAR a = false -> lone_stars (a +:+ b) = lone_stars b.
Proof.
  intros Ha. induction a as [|c a IH]; [done|].
  change (String c a +:+ b) with (String c (a +:+ b)).
  cbn [has_char lone_stars] in *. apply orb_false_elim in Ha as [-> Ha]. by apply IH.
Qed.

Lemma lone_stars_bullet rest :
  lone_stars ("* " +:+ rest) = line_star_free rest && lone_stars rest.
Proof. reflexivity. Qed.

(** Bullet lines whose items hold no star keep their only star alone. *)
Lemma lone_stars_bullets items :
  Forall (fun i => has_char STAR i = false) items ->
  lone_stars (join nl (map (fun i => "* " +:+ i) items)) = true.
Proof.
  induction 1 as [|i items Hi _ IH]; [done|].
  cbn [map]. rewrite join_cons.
  destruct (map (fun i => "* " +:+ i) items) as [|b bs] eqn:Hmap.
  - by rewrite lone_stars_bullet, (line_star_free_of_free _ Hi), (lone_stars_of_free _ Hi).
  - rewrite string_app_assoc, lone_stars_bullet.
    rewrite (line_star_free_app i _ Hi) by done.
    rewrite (lone_stars_app i _ Hi). exact IH.
Qed.

Lemma map_heading_of_bullets items :
  map heading_of (map (fun i => "* " +:+ i) items) = map (fun i => "* " +:+ i) items.
Proof.
  induction items as [|i items IH]; [done|]. cbn [map]. rewrite IH. f_equal.
Qed.

(** X16.  A text made of bullet lines only, whose items hold no star, is
    rendered as one list: the opening tag, one [<li>] per line in their
    order, the closing tag. *)
Theorem bullet_list_rendered item items :
  Forall (fun i => has_char STAR i = false /\ has_char LF i = false) (item :: items) ->
  convert_markdown_to_html (join nl (map (fun i => "* " +:+ i) (item :: items))) =
    join "<br>"
      ("<ul>" :: map (fun i => "<li>" +:+ i +:+ "</li>") (item :: items) ++ ["</ul>"]).
Proof.
  intros Hitems.
  set (bullets := map (fun i => "* " +:+ i) (item :: items)).
  assert (Forall (fun l => has_char LF l = false) bullets) as Hlf.
  { apply Forall_fmap. eapply Forall_impl; [exact Hitems|].
    intros i [_ Hi]. cbn. by rewrite has_char_app, Hi. }
  assert (split_lines (join nl bullets) = bullets) as Hsplit
    by (by apply split_lines_join_ne).
  assert (map heading_of bullets = bullets) as Hhead
    by apply map_heading_of_bullets.
  rewrite convert_lone; rewrite Hsplit, Hhead.
  - subst bullets. cbn [map bullets_loop].
    rewrite (string_prefix_app "* " item).
    change 2%nat with (String.length "* "). rewrite slice_from_app.
    by rewrite bullets_loop_items.
  - apply lone_stars_bullets. eapply Forall_impl; [exact Hitems|]. by intros i [Hi _].
Qed.

(** The failure document of the pipeline, as a page. *)
Lemma failure_document_page e :
  has_char STAR (exc_str e) = false ->
  has_char LF (exc_str e) = false ->
  convert_markdown_to_html (pipeline_failed e) =
    "<h1>Research Failed</h1><br><br>An unexpected error occurred: "
      +:+ exc_str e +:+ "<br>".
Proof.
  intros Hstar Hlf.
  rewrite star_free_page
    by (unfold pipeline_failed; by rewrite !has_char_app, Hstar).
  unfold pipeline_failed.
  rewrite (split_lines_app "# Research Failed") by done.
  change (nl +:+ "An unexpected error occurred: " +:+ exc_str e +:+ nl)
    with (EmptyString +:+ nl +:+ "An unexpected error occurred: " +:+ exc_str e +:+ nl).
  rewrite (split_lines_app EmptyString) by done.
  replace ("An unexpected error occurred: " +:+ exc_str e +:+ nl)
    with (("An unexpected error occurred: " +:+ exc_str e) +:+ nl +:+ EmptyString)
    by (by rewrite string_app_assoc).
  rewrite (split_lines_app ("An unexpected error occurred: " +:+ exc_str e))
    by (by rewrite has_char_app, Hlf).
  cbn [split_lines map].
  rewrite (heading_of_no_hash ("An unexpected error occurred: " +:+ exc_str e)) by done.
  change (heading_of "# Research Failed") with "<h1>Research Failed</h1>".
  rewrite heading_of_empty, !join_cons, !string_app_assoc. reflexivity.
Qed.

Section Page.

Context {World ChatGroq TavilyClient GenerativeModel : Type}.
Variable S : @Services World ChatGroq TavilyClient GenerativeModel.

(** X17.  When the construction of the system raises an [Exception]
    whose message holds no star and no line feed (a missing key, for
    one), the page made from what [run_full_research] returns is the
    heading "Research Failed", an empty line and the line with the
    message.  An exception of another class leaves [run_full_research],
    and there is no text to make a page from. *)
Theorem failed_construction_page topic w e :
  fst (run (ResearchSystem_init S) w) = Raise e ->
  has_char STAR (exc_str e) = false ->
  has_char LF (exc_str e) = false ->
  if is_Exception e then
    exists txt s',
      run (run_full_research S topic) w = (Ok txt, s') /\
      convert_markdown_to_html txt =
        "<h1>Research Failed</h1><br><br>An unexpected error occurred: "
          +:+ exc_str e +:+ "<br>"
  else fst (run (run_full_research S topic) w) = Raise e.
Proof.
  intros Hinit Hstar Hlf. unfold run in *.
  pose proof (run_full_research_run S topic (mkState w [])) as Hpipe.
  destruct (ResearchSystem_init S (mkState w [])) as [[system|e'] s1]; [done|].
  cbn in Hinit. injection Hinit as ->.
  destruct (is_Exception e); [|by rewrite Hpipe].
  exists (pipeline_failed e), s1. split; [exact Hpipe|].
  by apply failure_document_page.
Qed.

End Page.

(** ** Bold and italic *)

Lemma bold_match_other c rest :
  Ascii.eqb "*" c = false -> bold_match (String c rest) = None.
Proof. intros Hc. unfold bold_match. by rewrite prefix_cons, Hc. Qed.

Lemma italic_match_other c rest :
  Ascii.eqb c STAR = false -> italic_match (String c rest) = None.
Proof. intros Hc. destruct rest; cbn [italic_match]; [done|]. by rewrite Hc. Qed.

Lemma star_free_head c rest :
  has_char STAR (String c rest) = false ->
  Ascii.eqb c STAR = false /\ Ascii.eqb "*" c = false /\ has_char STAR rest = false.
Proof.
  cbn [has_char]. intros [Hc Hrest]%orb_false_elim.
  split; [done|]. split; [|done]. by rewrite Ascii.eqb_sym.
Qed.

Lemma re_sub_bold_from_skip before text n :
  has_char STAR before = false ->
  re_sub_bold_from (String.length before + n) (before +:+ text) =
    before +:+ re_sub_bold_from n text.
Proof.
  induction before as [|c before IH]; [done|].
  intros (_ & Hc & Hrest)%star_free_head.
  change (String c before +:+ text) with (String c (before +:+ text)).
  cbn [String.length Nat.add re_sub_bold_from].
  by rewrite (bold_match_other _ _ Hc), (IH Hrest).
Qed.

Lemma re_sub_italic_from_skip before text n :
  has_char STAR before = false ->
  re_sub_italic_from (String.length before + n) (before +:+ text) =
    before +:+ re_sub_italic_from n text.
Proof.
  induction before as [|c before IH]; [done|].
  intros (Hc & _ & Hrest)%star_free_head.
  change (String c before +:+ text) with (String c (before +:+ text)).
  cbn [String.length Nat.add re_sub_italic_from].
  by rewrite (italic_match_other _ _ Hc), (IH Hrest).
Qed.

(** The passes leave a stretch without star as it is and go on after it. *)
Lemma re_sub_bold_skip before text :
  has_char STAR before = false ->
  re_sub_bold (before +:+ text) = before +:+ re_sub_bold text.
Proof.
  intros Hfree. unfold re_sub_bold. by rewrite string_length_app, re_sub_bold_from_skip.
Qed.

Lemma re_sub_italic_skip before text :
  has_char STAR before = false ->
  re_sub_italic (before +:+ text) = before +:+ re_sub_italic text.
Proof.
  intros Hfree. unfold re_sub_italic. by rewrite string_length_app, re_sub_italic_from_skip.
Qed.

Lemma re_sub_bold_free text : has_char STAR text = false -> re_sub_bold text = text.
Proof. intros Hfree. apply re_sub_bold_from_lone. by apply lone_stars_of_free. Qed.

Lemma re_sub_italic_free text : has_char STAR text = false -> re_sub_italic text = text.
Proof. intros Hfree. apply re_sub_italic_from_lone. by apply lone_stars_of_free. Qed.

(** A match is replaced and the pass goes on after it; a position without
    match is passed over. *)
Lemma re_sub_bold_match text group after :
  bold_match text = Some (group, after) ->
  re_sub_bold text = "<strong>" +:+ group +:+ "</strong>" +:+ re_sub_bold after.
Proof.
  intros Hm. pose proof (bold_match_length _ _ _ Hm) as Hlen.
  unfold re_sub_bold at 1. destruct text as [|c text]; [done|].
  cbn [String.length re_sub_bold_from]. rewrite Hm.
  rewrite re_sub_bold_fuel; [done|]. cbn in Hlen. lia.
Qed.

Lemma re_sub_bold_pass c text :
  bold_match (String c text) = None ->
  re_sub_bold (String c text) = String c (re_sub_bold text).
Proof. intros Hm. unfold re_sub_bold. cbn [String.length re_sub_bold_from]. by rewrite Hm. Qed.

Lemma re_sub_italic_match text group after :
  italic_match text = Some (group, after) ->
  re_sub_italic text = "<em>" +:+ group +:+ "</em>" +:+ re_sub_italic after.
Proof.
  intros Hm. pose proof (italic_match_length _ _ _ Hm) as Hlen.
  unfold re_sub_italic at 1. destruct text as [|c text]; [done|].
  cbn [String.length re_sub_italic_from]. rewrite Hm.
  rewrite re_sub_italic_fuel; [done|]. cbn in Hlen. lia.
Qed.

Lemma bold_close_found group after :
  has_char STAR group = false -> has_char LF group = false ->
  bold_close (group +:+ "**" +:+ after) = Some (group, after).
Proof.
  induction group as [|c group IH].
  { intros _ _.
    change (EmptyString +:+ "**" +:+ after) with (String "*" (String "*" after)).
    cbn [bold_close]. rewrite !prefix_cons, !Ascii.eqb_refl. by destruct after. }
  intros (_ & Hc & Hstar)%star_free_head. cbn [has_char]. intros [Hlf Hrest]%orb_false_elim.
  change (String c group +:+ "**" +:+ after) with (String c (group +:+ "**" +:+ after)).
  cbn [bold_close]. by rewrite prefix_cons, Hc, Hlf, (IH Hstar Hrest).
Qed.

Lemma italic_close_found group after :
  has_char STAR group = false -> has_char LF group = false ->
  italic_close (group +:+ "*" +:+ after) = Some (group, after).
Proof.
  induction group as [|c group IH]; [done|].
  intros (Hc & _ & Hstar)%star_free_head. cbn [has_char]. intros [Hlf Hrest]%orb_false_elim.
  change (String c group +:+ "*" +:+ after) with (String c (group +:+ "*" +:+ after)).
  cbn [italic_close]. by rewrite Hc, Hlf, (IH Hstar Hrest).
Qed.

Lemma bold_match_found group after :
  group <> EmptyString ->
  has_char STAR group = false -> has_char LF group = false ->
  bold_match ("**" +:+ group +:+ "**" +:+ after) = Some (group, after).
Proof.
  intros Hne Hstar Hlf. destruct group as [|c group]; [done|].
  apply star_free_head in Hstar as (_ & _ & Hstar).
  cbn [has_char] in Hlf. apply orb_false_elim in Hlf as [Hc Hlf].
  unfold bold_match. rewrite (string_prefix_app "**").
  change 2%nat with (String.length "**"). rewrite slice_from_app.
  change (String c group +:+ "**" +:+ after) with (String c (group +:+ "**" +:+ after)).
  cbv beta iota. by rewrite Hc, bold_close_found.
Qed.

Lemma italic_match_found group after :
  group <> EmptyString ->
  has_char STAR group = false -> has_char LF group = false ->
  italic_match ("*" +:+ group +:+ "*" +:+ after) = Some (group, after).
Proof.
  intros Hne Hstar Hlf. destruct group as [|c group]; [done|].
  apply star_free_head in Hstar as (Hs & _ & Hstar).
  cbn [has_char] in Hlf. apply orb_false_elim in Hlf as [Hc Hlf].
  change ("*" +:+ String c group +:+ "*" +:+ after)
    with (String "*" (String c (group +:+ "*" +:+ after))).
  cbn [italic_match]. rewrite Hs, Hc, italic_close_found by done. done.
Qed.

(** A one-line text that is no heading, once its bold and italic parts
    are replaced, is the page, unless it then starts as a bullet. *)
Lemma convert_one_line text :
  has_char LF text = false ->
  String.prefix "#" text = false ->
  String.prefix "* " (re_sub_italic (re_sub_bold text)) = false ->
  has_char LF (re_sub_italic (re_sub_bold text)) = false ->
  convert_markdown_to_html text = re_sub_italic (re_sub_bold text).
Proof.
  intros Hlf Hhash Hbullet Hlf'. unfold convert_markdown_to_html.
  rewrite headings_by_line, (split_lines_one _ Hlf). cbn [map].
  rewrite (heading_of_no_hash _ Hhash).
  change (join nl [text]) with text.
  rewrite (split_lines_one _ Hlf'). cbn [bullets_loop].
  by rewrite Hbullet.
Qed.

Lemma no_hash_start before c rest :
  has_char HASH before = false -> Ascii.eqb "#" c = false ->
  String.prefix "#" (before +:+ String c rest) = false.
Proof.
  intros Hfree Hc. destruct before as [|b before].
  - change (EmptyString +:+ String c rest) with (String c rest). by rewrite prefix_cons, Hc.
  - change (String b before +:+ String c rest) with (String b (before +:+ String c rest)).
    cbn [has_char] in Hfree. apply orb_false_elim in Hfree as [Hb _].
    unfold HASH in Hb. by rewrite prefix_cons, Ascii.eqb_sym, Hb.
Qed.

(** X18.  On a line that is no heading and holds no other star, a
    stretch of text between two pairs of stars is rendered between
    [<strong>] and [</strong>], the text around it as it is. *)
Theorem bold_rendered before group after :
  group <> EmptyString ->
  has_char STAR before = false -> has_char STAR group = false -> has_char STAR after = false ->
  has_char LF before = false -> has_char LF group = false -> has_char LF after = false ->
  has_char HASH before = false ->
  convert_markdown_to_html (before +:+ "**" +:+ group +:+ "**" +:+ after) =
    before +:+ "<strong>" +:+ group +:+ "</strong>" +:+ after.
Proof.
  intros Hne Hsb Hsg Hsa Hlb Hlg Hla Hhash.
  assert (re_sub_bold (before +:+ "**" +:+ group +:+ "**" +:+ after) =
            before +:+ "<strong>" +:+ group +:+ "</strong>" +:+ after) as Hbold.
  { rewrite (re_sub_bold_skip _ _ Hsb).
    rewrite (re_sub_bold_match _ _ _ (bold_match_found _ after Hne Hsg Hlg)).
    by rewrite (re_sub_bold_free _ Hsa). }
  assert (has_char STAR (before +:+ "<strong>" +:+ group +:+ "</strong>" +:+ after) = false)
    as Hstar by (by rewrite !has_char_app, Hsb, Hsg, Hsa).
  etrans; [apply convert_one_line|]; rewrite ?Hbold, ?(re_sub_italic_free _ Hstar).
  - by rewrite !has_char_app, Hlb, Hlg, Hla.
  - by apply no_hash_start.
  - by apply prefix_bullet_free.
  - by rewrite !has_char_app, Hlb, Hlg, Hla.
  - done.
Qed.

(** X19.  On a line that is no heading and holds no other star, a
    stretch of text between two stars is rendered between [<em>] and
    [</em>], the text around it as it is. *)
Theorem italic_rendered before group after :
  group <> EmptyString ->
  has_char STAR before = false -> has_char STAR group = false -> has_char STAR after = false ->
  has_char LF before = false -> has_char LF group = false -> has_char LF after = false ->
  has_char HASH before = false ->
  convert_markdown_to_html (before +:+ "*" +:+ group +:+ "*" +:+ after) =
    before +:+ "<em>" +:+ group +:+ "</em>" +:+ after.
Proof.
  intros Hne Hsb Hsg Hsa Hlb Hlg Hla Hhash.
  assert (re_sub_bold (before +:+ "*" +:+ group +:+ "*" +:+ after) =
            before +:+ "*" +:+ group +:+ "*" +:+ after) as Hbold.
  { rewrite (re_sub_bold_skip _ _ Hsb). f_equal.
    destruct group as [|c group]; [done|].
    pose proof (star_free_head _ _ Hsg) as (_ & Hc & _).
    change ("*" +:+ String c group +:+ "*" +:+ after)
      with (String "*" (String c group +:+ "*" +:+ after)).
    rewrite re_sub_bold_pass
      by (unfold bold_match;
          change (String c group +:+ "*" +:+ after)
            with (String c (group +:+ "*" +:+ after));
          by rewrite !prefix_cons, Hc).
    f_equal. rewrite (re_sub_bold_skip _ _ Hsg). f_equal.
    change ("*" +:+ after) with (String "*" after).
    rewrite re_sub_bold_pass.
    - by rewrite (re_sub_bold_free _ Hsa).
    - unfold bold_match. rewrite prefix_cons. cbn.
      destruct after as [|a after]; [done|].
      pose proof (star_free_head _ _ Hsa) as (_ & Ha & _). by rewrite prefix_cons, Ha. }
  assert (re_sub_italic (before +:+ "*" +:+ group +:+ "*" +:+ after) =
            before +:+ "<em>" +:+ group +:+ "</em>" +:+ after) as Hitalic.
  { rewrite (re_sub_italic_skip _ _ Hsb).
    rewrite (re_sub_italic_match _ _ _ (italic_match_found _ after Hne Hsg Hlg)).
    by rewrite (re_sub_italic_free _ Hsa). }
  etrans; [apply convert_one_line|]; rewrite ?Hbold, ?Hitalic.
  - by rewrite !has_char_app, Hlb, Hlg, Hla.
  - by apply no_hash_start.
  - apply prefix_bullet_free. by rewrite !has_char_app, Hsb, Hsg, Hsa.
  - by rewrite !has_char_app, Hlb, Hlg, Hla.
  - done.
Qed.

Lemma re_sub_bold_star_then text :
  String.prefix "*" text = false ->
  re_sub_bold ("*" +:+ text) = "*" +:+ re_sub_bold text.
Proof.
  intros Hp. change ("*" +:+ text) with (String "*" text).
  rewrite re_sub_bold_pass; [done|].
  unfold bold_match. destruct text as [|c text]; [done|].
  rewrite prefix_cons in Hp. rewrite !prefix_cons, Ascii.eqb_refl.
  destruct (Ascii.eqb "*" c); [by destruct text|done].
Qed.

Lemma prefix_star_free text : has_char STAR text = false -> String.prefix "*" text = false.
Proof.
  destruct text as [|c text]; [done|].
  intros (_ & Hc & _)%star_free_head. by rewrite prefix_cons, Hc.
Qed.

(** X20.  A bullet line that holds an emphasised word is not rendered
    as a list item: the italic pass runs before the bullet loop and takes
    the star of the bullet for an opening star, so that the line up to
    the next star becomes the emphasis and the last star is left over. *)
Theorem bullet_with_emphasis_is_no_item first word :
  has_char STAR first = false -> has_char LF first = false ->
  has_char STAR word = false -> has_char LF word = false ->
  convert_markdown_to_html ("* " +:+ first +:+ "*" +:+ word +:+ "*") =
    "<em> " +:+ first +:+ "</em>" +:+ word +:+ "*".
Proof.
  intros Hsf Hlf Hsw Hlw.
  assert (has_char STAR (" " +:+ first) = false) as Hsg by (by rewrite has_char_app, Hsf).
  assert (has_char LF (" " +:+ first) = false) as Hlg by (by rewrite has_char_app, Hlf).
  assert (re_sub_bold "*" = "*") as Hb1 by reflexivity.
  assert (re_sub_italic "*" = "*") as Hi1 by reflexivity.
  assert (re_sub_bold ("* " +:+ first +:+ "*" +:+ word +:+ "*") =
            "* " +:+ first +:+ "*" +:+ word +:+ "*") as Hbold.
  { change ("* " +:+ first +:+ "*" +:+ word +:+ "*")
      with ("*" +:+ (" " +:+ first) +:+ "*" +:+ word +:+ "*").
    rewrite re_sub_bold_star_then by done. f_equal.
    rewrite (re_sub_bold_skip _ _ Hsg). f_equal.
    destruct word as [|c word]; [reflexivity|].
    rewrite re_sub_bold_star_then
      by (change (String c word +:+ "*") with (String c (word +:+ "*"));
          apply star_free_head in Hsw as (_ & Hc & _); by rewrite prefix_cons, Hc).
    by rewrite (re_sub_bold_skip _ _ Hsw), Hb1. }
  assert (re_sub_italic ("* " +:+ first +:+ "*" +:+ word +:+ "*") =
            "<em> " +:+ first +:+ "</em>" +:+ word +:+ "*") as Hitalic.
  { change ("* " +:+ first +:+ "*" +:+ word +:+ "*")
      with ("*" +:+ (" " +:+ first) +:+ "*" +:+ word +:+ "*").
    rewrite (re_sub_italic_match _ _ _
               (italic_match_found (" " +:+ first) (word +:+ "*") ltac:(done) Hsg Hlg)).
    by rewrite (re_sub_italic_skip _ _ Hsw), Hi1. }
  etrans; [apply convert_one_line|]; rewrite ?Hbold, ?Hitalic; try done.
  - by rewrite !has_char_app, Hlf, Hlw.
  - by rewrite !has_char_app, Hlf, Hlw.
Qed.

(** ** The page on examples *)

Lemma text_without_stars_witness :
  convert_markdown_to_html ("# Report" +:+ nl +:+ "All good.") =
    join "<br>" (map heading_of (split_lines ("# Report" +:+ nl +:+ "All good."))) /\
  (has_char HASH ("# Report" +:+ nl +:+ "All good.") = false ->
   convert_markdown_to_html ("# Report" +:+ nl +:+ "All good.") =
     join "<br>" (split_lines ("# Report" +:+ nl +:+ "All good."))).
Proof.
  apply (text_without_stars ("# Report" +:+ nl +:+ "All good.")).
  vm_compute. reflexivity.
Defined.

Lemma heading_lines_rendered_witness :
  convert_markdown_to_html ("### " +:+ "Key Findings") = "<h3>" +:+ "Key Findings" +:+ "</h3>" /\
  convert_markdown_to_html ("## " +:+ "Key Findings") = "<h2>" +:+ "Key Findings" +:+ "</h2>" /\
  convert_markdown_to_html ("# " +:+ "Key Findings") = "<h1>" +:+ "Key Findings" +:+ "</h1>" /\
  convert_markdown_to_html "# " = "# ".
Proof.
  apply (heading_lines_rendered "Key Findings").
  - discriminate.
  - vm_compute. reflexivity.
  - vm_compute. reflexivity.
Defined.

Lemma bullet_list_rendered_witness :
  convert_markdown_to_html (join nl (map (fun i => "* " +:+ i) ["one"; "two"])) =
    join "<br>" ("<ul>" :: map (fun i => "<li>" +:+ i +:+ "</li>") ["one"; "two"] ++ ["</ul>"]).
Proof.
  apply (bullet_list_rendered "one" ["two"]).
  repeat constructor.
Defined.

Lemma failed_construction_page_witness :
  exists txt s',
    run (run_full_research svc_no_keys TOPIC) fresh = (Ok txt, s') /\
    convert_markdown_to_html txt =
      "<h1>Research Failed</h1><br><br>An unexpected error occurred: "
        +:+ exc_str (ValueError MISSING_RESEARCH_KEYS) +:+ "<br>".
Proof.
  apply (failed_construction_page svc_no_keys TOPIC fresh (ValueError MISSING_RESEARCH_KEYS)).
  - vm_compute. reflexivity.
  - vm_compute. reflexivity.
  - vm_compute. reflexivity.
Defined.

Lemma bold_rendered_witness :
  convert_markdown_to_html ("a " +:+ "**" +:+ "b" +:+ "**" +:+ " c") =
    "a " +:+ "<strong>" +:+ "b" +:+ "</strong>" +:+ " c".
Proof.
  apply (bold_rendered "a " "b" " c"); try (vm_compute; reflexivity). discriminate.
Defined.

Lemma italic_rendered_witness :
  convert_markdown_to_html ("a " +:+ "*" +:+ "b" +:+ "*" +:+ " c") =
    "a " +:+ "<em>" +:+ "b" +:+ "</em>" +:+ " c".
Proof.
  apply (italic_rendered "a " "b" " c"); try (vm_compute; reflexivity). discriminate.
Defined.

Lemma bullet_with_emphasis_is_no_item_witness :
  convert_markdown_to_html ("* " +:+ "a " +:+ "*" +:+ "b" +:+ "*") =
    "<em> " +:+ "a " +:+ "</em>" +:+ "b" +:+ "*".
Proof.
  apply (bullet_with_emphasis_is_no_item "a " "b"); vm_compute; reflexivity.
Defined.
